(** * bon: routing of net.Conn connections by a 4+4 byte handshake

    A shallow embedding of [bon.go]: the handler registry of [Bon], the
    wire helpers [writeUInt32] and [readUInt32], the initiator side
    [Connect], and the receiver side [handleConn] and [Run].

    Go values are modelled as follows.
    - [uint32] and [Route] are [Z] in the range [0, 2^32).
    - a byte is [Byte.byte]; a [[]byte] is [list byte].
    - a [func(net.Conn)] value is [option Fn]: [None] is Go's [nil], and
      [Fn] is the type of the non-nil function values.
    - [map[Route]func(net.Conn)] is a [gmap Z (option Fn)]: a key can be
      present with a nil value, and reading an absent key gives nil.
    - [net.Conn] and [Transporter] are interfaces implemented outside
      the package; they are modelled by records that script what their
      methods return and record what was done to them. *)

From Stdlib Require Import ZArith Lia List.
From Stdlib.Strings Require Import Byte.
From stdpp Require Import base option gmap strings pretty.
Import ListNotations.

Local Open Scope Z_scope.

(** ** encoding/binary.BigEndian on 4 bytes *)

Module Wire.

(** Go's conversion [byte(v)] of an unsigned integer: the low 8 bits. *)
Definition byte_of_Z (v : Z) : byte :=
  match Byte.of_N (Z.to_N (v mod 256)) with
  | Some b => b
  | None => x00
  end.

(** Go's conversion [uint32(b)] of a byte. *)
Definition Z_of_byte (b : byte) : Z := Z.of_N (Byte.to_N b).

(** [binary.BigEndian.PutUint32(buf, v)] on a 4-byte buffer:
    b[0] = byte(v >> 24); b[1] = byte(v >> 16);
    b[2] = byte(v >> 8);  b[3] = byte(v). *)
Definition PutUint32 (v : Z) : list byte :=
  [ byte_of_Z (Z.shiftr v 24); byte_of_Z (Z.shiftr v 16);
    byte_of_Z (Z.shiftr v 8);  byte_of_Z v ].

(** [binary.BigEndian.Uint32(b)]:
    uint32(b[3]) | uint32(b[2])<<8 | uint32(b[1])<<16 | uint32(b[0])<<24.
    The buffers of this package always have length 4; any other length
    makes Go panic, which no caller here can trigger, and is given 0. *)
Definition Uint32 (b : list byte) : Z :=
  match b with
  | [b0; b1; b2; b3] =>
      Z.lor (Z.lor (Z.lor (Z_of_byte b3) (Z.shiftl (Z_of_byte b2) 8))
                   (Z.shiftl (Z_of_byte b1) 16))
            (Z.shiftl (Z_of_byte b0) 24)
  | _ => 0
  end.

(** [make([]byte, n)]: n zero bytes. *)
Definition make (n : nat) : list byte := repeat x00 n.

(** The builtin [copy(dst, src)]: overwrite a prefix of [dst] with as
    much of [src] as fits; the result has the length of [dst]. *)
Definition copy (dst src : list byte) : list byte :=
  firstn (length dst) src ++ skipn (length src) dst.

End Wire.

(** ** Errors *)

(** Go's [error] values seen by this package: errors made outside it (by
    a Transporter or a net.Conn, told apart by a code) and the package's
    own [HandlerError{Route}]. *)
Inductive error : Type :=
| IOError (code : nat)
| HandlerError (Route : Z).

(** [io.EOF]. *)
Definition EOF : error := IOError 0.

(** ** net.Conn *)

(** What one call of [Read] finds on the stream: a segment of bytes that
    has arrived, or a failure. *)
Inductive read_event : Type :=
| Data (bs : list byte)
| Failure (e : error).

(** A connection, seen from the side that holds it.
    - [incoming]: what the stream delivers, in order of arrival;
    - [wfail]: the error [Write] returns, nil when it succeeds;
    - [sent]: the bytes written so far;
    - [cfail]: the error [Close] returns;
    - [closed]: whether [Close] was called. *)
Record Conn : Type := mkConn {
  incoming : list read_event;
  wfail : option error;
  sent : list byte;
  cfail : option error;
  closed : bool
}.

Definition set_incoming (c : Conn) (i : list read_event) : Conn :=
  mkConn i (wfail c) (sent c) (cfail c) (closed c).

Definition set_sent (c : Conn) (s : list byte) : Conn :=
  mkConn (incoming c) (wfail c) s (cfail c) (closed c).

Definition set_closed (c : Conn) (x : bool) : Conn :=
  mkConn (incoming c) (wfail c) (sent c) (cfail c) x.

(** [n, err := conn.Read(buf)]: one call delivers at most [len(buf)]
    bytes of the first segment and leaves the rest of it on the stream;
    on an ended stream it returns [io.EOF]. The result is the buffer
    after the call, [n], [err] and the connection. *)
Definition Read (c : Conn) (buf : list byte)
  : list byte * nat * option error * Conn :=
  match incoming c with
  | [] => (buf, 0%nat, Some EOF, c)
  | Failure e :: rest => (buf, 0%nat, Some e, set_incoming c rest)
  | Data bs :: rest =>
      let n := Nat.min (length buf) (length bs) in
      let rest' := if (length buf <? length bs)%nat
                   then Data (skipn (length buf) bs) :: rest
                   else rest in
      (Wire.copy buf bs, n, None, set_incoming c rest')
  end.

(** [n, err := conn.Write(buf)]. *)
Definition Write (c : Conn) (buf : list byte) : nat * option error * Conn :=
  match wfail c with
  | Some e => (0%nat, Some e, c)
  | None => (length buf, None, set_sent c (sent c ++ buf))
  end.

(** [err := conn.Close()]. *)
Definition Close (c : Conn) : option error * Conn :=
  (cfail c, set_closed c true).

(** ** Transporter *)

(** A connection provider.
    - [dial]: what [Open(r)] returns for each route;
    - [opened]: the routes [Open] was called with, latest first;
    - [pending]: what the successive calls of [Accept] return; when
      nothing is pending, [Accept] blocks. *)
Record Transporter : Type := mkTransporter {
  dial : Z -> Conn + error;
  opened : list Z;
  pending : list (Conn + error)
}.

(** [conn, err := t.Open(r)]. *)
Definition Open (t : Transporter) (r : Z) : (Conn + error) * Transporter :=
  (dial t r, mkTransporter (dial t) (r :: opened t) (pending t)).

(** [conn, err := t.Accept()]; [None] when the call blocks for ever. *)
Definition Accept (t : Transporter) : option ((Conn + error) * Transporter) :=
  match pending t with
  | [] => None
  | x :: rest => Some (x, mkTransporter (dial t) (opened t) rest)
  end.

(** ** The handshake status codes

    const (
      handlerExists uint32 = 1 << iota
      nonMatchingHandlerExists
      handlerDoesNotExists
    ) *)
Definition handlerExists : Z := Z.shiftl 1 0.
Definition nonMatchingHandlerExists : Z := Z.shiftl 1 1.
Definition handlerDoesNotExists : Z := Z.shiftl 1 2.

Section Bon.

(** The non-nil values of type [func(net.Conn)]. *)
Variable Fn : Type.

(** The [Bon] struct. The two mutexes have no state of their own in a
    sequential run; [log] is what [b.log.Println] has printed, oldest
    first. *)
Record Bon : Type := mkBon {
  transporter : Transporter;
  handlers : gmap Z (option Fn);
  nonMatchingHandler : option Fn;
  log : list error
}.

Definition set_transporter (b : Bon) (t : Transporter) : Bon :=
  mkBon t (handlers b) (nonMatchingHandler b) (log b).

Definition set_handlers (b : Bon) (m : gmap Z (option Fn)) : Bon :=
  mkBon (transporter b) m (nonMatchingHandler b) (log b).

Definition set_nonMatchingHandler (b : Bon) (h : option Fn) : Bon :=
  mkBon (transporter b) (handlers b) h (log b).

(** [b.log.Println(err)]. *)
Definition Println (b : Bon) (e : error) : Bon :=
  mkBon (transporter b) (handlers b) (nonMatchingHandler b) (log b ++ [e]).

(** [New(t)]: an empty registry. *)
Definition New (t : Transporter) : Bon := mkBon t ∅ None [].

(** [b.handlers[r] = h]. *)
Definition Handle (b : Bon) (r : Z) (h : option Fn) : Bon :=
  set_handlers b (<[r := h]> (handlers b)).

(** [b.nonMatchingHandler = h]. *)
Definition HandleNonMatching (b : Bon) (h : option Fn) : Bon :=
  set_nonMatchingHandler b h.

(** [delete(b.handlers, r)]. *)
Definition Off (b : Bon) (r : Z) : Bon :=
  set_handlers b (delete r (handlers b)).

(** [b.nonMatchingHandler = nil]. *)
Definition OffNonMatching (b : Bon) : Bon :=
  set_nonMatchingHandler b None.

(** The map read [b.handlers[r]]: nil for an absent key. *)
Definition index (m : gmap Z (option Fn)) (r : Z) : option Fn :=
  match m !! r with
  | Some h => h
  | None => None
  end.

(** [writeUInt32(conn, data)]. *)
Definition writeUInt32 (conn : Conn) (data : Z) : option error * Conn :=
  let buf := Wire.PutUint32 data in
  let '(_, err, conn) := Write conn buf in
  (err, conn).

(** [readUInt32(conn)]: one [Read] into a fresh 4-byte buffer, whose
    count of bytes is dropped. *)
Definition readUInt32 (conn : Conn) : Z * option error * Conn :=
  let buf := Wire.make 4 in
  let '(buf, _, err, conn) := Read conn buf in
  match err with
  | Some e => (0, Some e, conn)
  | None => (Wire.Uint32 buf, None, conn)
  end.

(** [Connect(r)]: the result is Go's pair (conn, err) and the Bon
    after the call. *)
Definition Connect (b : Bon) (r : Z) : option Conn * option error * Bon :=
  let '(res, t) := Open (transporter b) r in
  let b := set_transporter b t in
  match res with
  | inr err => (None, Some err, b)
  | inl conn =>
      let '(err, conn) := writeUInt32 conn r in
      match err with
      | Some e => (None, Some e, b)
      | None =>
          let '(data, err, conn) := readUInt32 conn in
          match err with
          | Some e => (None, Some e, b)
          | None =>
              if decide (data = handlerExists) then (Some conn, None, b)
              else if decide (data = nonMatchingHandlerExists)
                   then (Some conn, None, b)
                   else (None, Some (HandlerError r), b)
          end
      end
  end.

(** How [handleConn] leaves a connection. *)
Inductive outcome : Type :=
| Dispatched (h : Fn) (conn : Conn)  (* h(conn) was called *)
| Rejected (conn : Conn)             (* no handler: conn.Close() was called *)
| Abandoned (conn : Conn).           (* handshake I/O failed: logged, returned *)

(** Lines 186-202 of [handleConn]: the handler and the status code. *)
Definition resolve (b : Bon) (data : Z) : Z * option Fn :=
  let handlerExistence := handlerDoesNotExists in
  let h := index (handlers b) data in
  match h with
  | Some _ => (handlerExists, h)
  | None =>
      let h := nonMatchingHandler b in
      match h with
      | Some _ => (nonMatchingHandlerExists, nonMatchingHandler b)
      | None => (handlerExistence, h)
      end
  end.

(** [handleConn(conn)]. *)
Definition handleConn (b : Bon) (conn : Conn) : Bon * outcome :=
  let '(data, err, conn) := readUInt32 conn in
  match err with
  | Some e => (Println b e, Abandoned conn)
  | None =>
      let '(handlerExistence, h) := resolve b data in
      let '(err, conn) := writeUInt32 conn handlerExistence in
      match err with
      | Some e => (Println b e, Abandoned conn)
      | None =>
          match h with
          | Some f => (b, Dispatched f conn)
          | None =>
              let '(err, conn) := Close conn in
              match err with
              | Some e => (Println b e, Rejected conn)
              | None => (b, Rejected conn)
              end
          end
      end
  end.

(** The Bon whose Transporter has [script] left for [Accept]. *)
Definition set_pending (b : Bon) (script : list (Conn + error)) : Bon :=
  set_transporter b
    (mkTransporter (dial (transporter b)) (opened (transporter b)) script).

(** The loop of [Run] over what the calls of [Accept] return. Each [go
    b.handleConn(conn)] is run to its end before the next [Accept]:
    the goroutines share only the registry, which they read, and the log.
    The result is the Bon after the loop, the outcome of every goroutine
    started, and what [Run] returns: [None] when it never returns
    because [Accept] blocks for ever. *)
Fixpoint accept_loop (b : Bon) (script : list (Conn + error))
  : Bon * list outcome * option error :=
  match script with
  | [] => (set_pending b [], [], None)
  | inr err :: rest => (set_pending b rest, [], Some err)
  | inl conn :: rest =>
      let '(b1, o) := handleConn (set_pending b rest) conn in
      let '(b2, os, ret) := accept_loop b1 rest in
      (b2, o :: os, ret)
  end.

(** [Run()]. *)
Definition Run (b : Bon) : Bon * list outcome * option error :=
  accept_loop b (pending (transporter b)).

End Bon.

Arguments mkBon {Fn}.
Arguments transporter {Fn}.
Arguments handlers {Fn}.
Arguments nonMatchingHandler {Fn}.
Arguments log {Fn}.
Arguments New {Fn}.
Arguments Handle {Fn}.
Arguments HandleNonMatching {Fn}.
Arguments Off {Fn}.
Arguments OffNonMatching {Fn}.
Arguments index {Fn}.
Arguments Println {Fn}.
Arguments set_transporter {Fn}.
Arguments set_handlers {Fn}.
Arguments set_nonMatchingHandler {Fn}.
Arguments Connect {Fn}.
Arguments resolve {Fn}.
Arguments handleConn {Fn}.
Arguments set_pending {Fn}.
Arguments accept_loop {Fn}.
Arguments Run {Fn}.
Arguments Dispatched {Fn}.
Arguments Rejected {Fn}.
Arguments Abandoned {Fn}.

(** The connection an outcome is about. *)
Definition conn_of {Fn} (o : outcome Fn) : Conn :=
  match o with
  | Dispatched _ c => c
  | Rejected c => c
  | Abandoned c => c
  end.

(** The handler an outcome called, if any. *)
Definition invoked {Fn} (o : outcome Fn) : option Fn :=
  match o with
  | Dispatched h _ => Some h
  | _ => None
  end.

(** The Bon after one call of [Open(r)]. *)
Definition after_Open {Fn} (b : Bon Fn) (r : Z) : Bon Fn :=
  set_transporter b
    (mkTransporter (dial (transporter b)) (r :: opened (transporter b))
                   (pending (transporter b))).

(** The number of bits set in a uint32. *)
Definition popcount32 (v : Z) : nat :=
  length (filter (fun i => Z.testbit v i) (map Z.of_nat (seq 0 32))).

(** What stays on the stream after a [Read] took the first four bytes
    of a segment that had [more] after them. *)
Definition leftover (more : list byte) (rest : list read_event)
  : list read_event :=
  match more with
  | [] => rest
  | _ :: _ => Data more :: rest
  end.

(** The connection after the route tag was read from its first segment
    and [status] was written back. *)
Definition answered (conn : Conn) (rest : list read_event) (status : Z) : Conn :=
  mkConn rest None (sent conn ++ Wire.PutUint32 status) (cfail conn)
         (closed conn).

(** The Bon after [conn.Close()] returned [err] at the end of
    [handleConn]: a non-nil error is logged. *)
Definition log_close {Fn} (b : Bon Fn) (err : option error) : Bon Fn :=
  match err with
  | Some e => Println b e
  | None => b
  end.

(** The I/O failure that the handshake of [handleConn] meets on a
    connection: of the read of the route tag, or else of the write of
    the status. *)
Definition handshake_failure (conn : Conn) : option error :=
  match incoming conn with
  | [] => Some EOF
  | Failure e :: _ => Some e
  | Data _ :: _ => wfail conn
  end.

(** ** handleConn among other goroutines

    [handleConn] runs in a goroutine of its own while other goroutines
    may call [Handle], [Off], [HandleNonMatching] and [OffNonMatching]
    on the same Bon. Its run is cut at every access to the Bon and to
    the connection; what is done between two cuts touches locals only.
    A section under a lock is one step, and so is the read of
    [b.nonMatchingHandler] of line 200, made after [b.nhm.RUnlock()]. *)

Section Goroutines.

Context {Fn : Type}.

(** Where a goroutine running [handleConn] stands, with its locals. *)
Inductive goroutine : Type :=
| AtReadTag (conn : Conn)
    (* line 180: data, err := b.readUInt32(conn) *)
| AtHandlers (data : Z) (conn : Conn)
    (* lines 187-189: h := b.handlers[Route(data)], under b.hm *)
| AtFallback (conn : Conn)
    (* lines 194-196: h = b.nonMatchingHandler, under b.nhm *)
| AtFallbackAgain (conn : Conn)
    (* line 200: h = b.nonMatchingHandler, no lock held *)
| AtWriteStatus (handlerExistence : Z) (h : option Fn) (conn : Conn)
    (* line 205: err = b.writeUInt32(conn, handlerExistence) *)
| AtDispatch (h : option Fn) (conn : Conn)
    (* lines 211-218: h(conn), or conn.Close() *)
| Returned (o : outcome Fn).

(** One step of the goroutine on the Bon as it is now. *)
Definition step (b : Bon Fn) (g : goroutine) : Bon Fn * goroutine :=
  match g with
  | AtReadTag conn =>
      let '(data, err, conn) := readUInt32 conn in
      match err with
      | Some e => (Println b e, Returned (Abandoned conn))
      | None => (b, AtHandlers data conn)
      end
  | AtHandlers data conn =>
      let h := index (handlers b) data in
      match h with
      | Some _ => (b, AtWriteStatus handlerExists h conn)
      | None => (b, AtFallback conn)
      end
  | AtFallback conn =>
      let h := nonMatchingHandler b in
      match h with
      | Some _ => (b, AtFallbackAgain conn)
      | None => (b, AtWriteStatus handlerDoesNotExists h conn)
      end
  | AtFallbackAgain conn =>
      (b, AtWriteStatus nonMatchingHandlerExists (nonMatchingHandler b) conn)
  | AtWriteStatus handlerExistence h conn =>
      let '(err, conn) := writeUInt32 conn handlerExistence in
      match err with
      | Some e => (Println b e, Returned (Abandoned conn))
      | None => (b, AtDispatch h conn)
      end
  | AtDispatch h conn =>
      match h with
      | Some f => (b, Returned (Dispatched f conn))
      | None =>
          let '(err, conn) := Close conn in
          match err with
          | Some e => (Println b e, Returned (Rejected conn))
          | None => (b, Returned (Rejected conn))
          end
      end
  | Returned o => (b, Returned o)
  end.

(** A call made by another goroutine; each one holds its lock from
    start to end. *)
Inductive call : Type :=
| CallHandle (r : Z) (h : option Fn)
| CallOff (r : Z)
| CallHandleNonMatching (h : option Fn)
| CallOffNonMatching.

Definition perform (b : Bon Fn) (c : call) : Bon Fn :=
  match c with
  | CallHandle r h => Handle b r h
  | CallOff r => Off b r
  | CallHandleNonMatching h => HandleNonMatching b h
  | CallOffNonMatching => OffNonMatching b
  end.

(** A schedule: [None] lets the goroutine of [handleConn] make a step,
    [Some c] lets another one make the call c. *)
Fixpoint interleave (b : Bon Fn) (g : goroutine) (schedule : list (option call))
  : Bon Fn * goroutine :=
  match schedule with
  | [] => (b, g)
  | None :: rest => let '(b, g) := step b g in interleave b g rest
  | Some c :: rest => interleave (perform b c) g rest
  end.

End Goroutines.

(** A Transporter whose [Open] gives [c] and that has [script] to
    accept. *)
Definition transporter_of (c : Conn) (script : list (Conn + error))
  : Transporter :=
  mkTransporter (fun _ => inl c) [] script.

(** A Transporter that was closed: [Open] and [Accept] fail with [e]. *)
Definition closed_transporter (e : error) : Transporter :=
  mkTransporter (fun _ => inr e) [] [inr e].

(** An open connection on which the peer's message [bs] has arrived in
    one segment. *)
Definition conn_with (bs : list byte) : Conn :=
  mkConn [Data bs] None [] None false.

(** An open connection on which the peer's message arrives in the
    segments [segs]. *)
Definition conn_in_segments (segs : list (list byte)) : Conn :=
  mkConn (map Data segs) None [] None false.

(** What a receiver [peer] writes back on a connection on which the
    route tag r arrives in one segment. *)
Definition reply {Fn} (peer : Bon Fn) (r : Z) : list byte :=
  sent (conn_of (snd (handleConn peer (conn_with (Wire.PutUint32 r))))).

(** A Transporter whose [Open(r)] gives the initiator's end of a
    connection that [peer] accepts and hands to [handleConn]: each
    [Write] at one end is one segment at the other, as with the
    [io.Pipe] pairs of the package's tests. *)
Definition remote {Fn} (peer : Bon Fn) : Transporter :=
  mkTransporter (fun r => inl (conn_with (reply peer r))) [] [].

(** [ErrNet] of the package's tests. *)
Definition ErrNet : error := IOError 1.

(** All the bytes a stream delivers, in order. *)
Fixpoint delivered (events : list read_event) : list byte :=
  match events with
  | [] => []
  | Data bs :: rest => bs ++ delivered rest
  | Failure _ :: _ => []
  end.

(** ** HandlerError.Error *)

(** [e.Error()] for [e = HandlerError{Route}]:
    fmt.Sprintf("no `%d` handler does not exists.", e.Route), with [%d]
    the decimal numeral of the unsigned route. *)
Definition HandlerError_Error (Route : Z) : string :=
  "no `" +:+ pretty (Z.to_N Route) +:+ "` handler does not exists.".

(** ** Failures of the initiator's handshake *)

(** The I/O failure that the handshake of [Connect] meets on the
    connection it opened: of the write of the route tag, or else of the
    read of the status. *)
Definition connect_failure (conn : Conn) : option error :=
  match wfail conn with
  | Some e => Some e
  | None =>
      match incoming conn with
      | [] => Some EOF
      | Failure e :: _ => Some e
      | Data _ :: _ => None
      end
  end.

(** ** Schedules *)

(** Whether a call of another goroutine writes what a dispatch for the
    route tag r reads: the entry of r in the map, or the fallback
    slot. *)
Definition touches {Fn} (r : Z) (c : @call Fn) : bool :=
  match c with
  | CallHandle r' _ => bool_decide (r' = r)
  | CallOff r' => bool_decide (r' = r)
  | CallHandleNonMatching _ => true
  | CallOffNonMatching => true
  end.

(** A schedule in which no call touches the dispatch for r. *)
Definition avoids {Fn} (r : Z) (schedule : list (option (@call Fn))) : bool :=
  forallb (fun a => match a with
                    | None => true
                    | Some c => negb (touches r c)
                    end) schedule.

(** The number of steps a schedule gives to the goroutine of
    [handleConn]. *)
Fixpoint steps {Fn} (schedule : list (option (@call Fn))) : nat :=
  match schedule with
  | [] => 0
  | None :: rest => S (steps rest)
  | Some _ :: rest => steps rest
  end.

(** The steps a goroutine of [handleConn] has left at most. *)
Definition remaining {Fn} (g : @goroutine Fn) : nat :=
  match g with
  | AtReadTag _ => 6
  | AtHandlers _ _ => 5
  | AtFallback _ => 4
  | AtFallbackAgain _ => 3
  | AtWriteStatus _ _ _ => 2
  | AtDispatch _ _ => 1
  | Returned _ => 0
  end.

(** Lines 211-218 of [handleConn] as a function of the locals: the
    handler is called, or the connection is closed. *)
Definition dispatch_to {Fn} (h : option Fn) (conn : Conn) : outcome Fn :=
  match h with
  | Some f => Dispatched f conn
  | None => Rejected (snd (Close conn))
  end.

(** Lines 205-218 of [handleConn] as a function of the locals. *)
Definition write_and_dispatch {Fn} (handlerExistence : Z) (h : option Fn)
  (conn : Conn) : outcome Fn :=
  let '(err, conn) := writeUInt32 conn handlerExistence in
  match err with
  | Some _ => Abandoned conn
  | None => dispatch_to h conn
  end.

(** How a goroutine of [handleConn] ends when no other goroutine
    writes to the Bon before it returns. *)
Definition finish {Fn} (b : Bon Fn) (g : @goroutine Fn) : outcome Fn :=
  match g with
  | AtReadTag conn => snd (handleConn b conn)
  | AtHandlers data conn =>
      write_and_dispatch (fst (resolve b data)) (snd (resolve b data)) conn
  | AtFallback conn =>
      match nonMatchingHandler b with
      | Some _ =>
          write_and_dispatch nonMatchingHandlerExists (nonMatchingHandler b)
                             conn
      | None => write_and_dispatch handlerDoesNotExists None conn
      end
  | AtFallbackAgain conn =>
      write_and_dispatch nonMatchingHandlerExists (nonMatchingHandler b) conn
  | AtWriteStatus handlerExistence h conn =>
      write_and_dispatch handlerExistence h conn
  | AtDispatch h conn => dispatch_to h conn
  | Returned o => o
  end.

(** The route tag that a goroutine of [handleConn] looks up, as far as
    it still has the lookup to make. *)
Definition looks_up {Fn} (r : Z) (g : @goroutine Fn) : Prop :=
  match g with
  | AtReadTag conn => fst (fst (readUInt32 conn)) = r
  | AtHandlers data _ => data = r
  | _ => True
  end.

(** The connections a script of [Accept] results gives before its
    first error. *)
Fixpoint accepted (script : list (Conn + error)) : list Conn :=
  match script with
  | [] => []
  | inl conn :: rest => conn :: accepted rest
  | inr _ :: _ => []
  end.

(** * Properties *)

(** ** Facts on the 4-byte big-endian encoding *)

Module WireFacts.
Import Wire.

Lemma Z_of_byte_of_Z v : Z_of_byte (byte_of_Z v) = v mod 256.
Proof.
  unfold Z_of_byte, byte_of_Z.
  assert (Hr : 0 <= v mod 256 < 256) by (apply Z.mod_pos_bound; lia).
  destruct (Byte.of_N (Z.to_N (v mod 256))) as [b|] eqn:E.
  - apply Byte.to_of_N in E. rewrite E. lia.
  - apply Byte.of_N_None_iff in E. lia.
Qed.

Lemma Z_of_byte_range b : 0 <= Z_of_byte b < 256.
Proof.
  unfold Z_of_byte. pose proof (Byte.to_N_bounded b). lia.
Qed.

Lemma byte_of_Z_of_byte b : byte_of_Z (Z_of_byte b) = b.
Proof.
  unfold byte_of_Z. rewrite Z.mod_small by apply Z_of_byte_range.
  unfold Z_of_byte. rewrite N2Z.id, Byte.of_to_N. reflexivity.
Qed.

Lemma length_PutUint32 v : length (PutUint32 v) = 4%nat.
Proof. reflexivity. Qed.

Lemma testbit_low8 v i :
  0 <= i -> Z.testbit (v mod 256) i = (i <? 8) && Z.testbit v i.
Proof.
  intros Hi. change 256 with (2 ^ 8).
  destruct (Z.ltb_spec i 8).
  - rewrite Z.mod_pow2_bits_low by lia. reflexivity.
  - rewrite Z.mod_pow2_bits_high by lia. reflexivity.
Qed.

(** Decoding what was encoded gives the value back, for every uint32. *)
Lemma Uint32_PutUint32 v : 0 <= v < 2 ^ 32 -> Uint32 (PutUint32 v) = v.
Proof.
  intros Hv. unfold PutUint32, Uint32.
  rewrite !Z_of_byte_of_Z.
  apply Z.bits_inj'. intros i Hi.
  rewrite !Z.lor_spec, !Z.shiftl_spec by lia.
  rewrite (testbit_low8 v i) by lia.
  destruct (Z.ltb_spec i 8) as [H8|H8].
  { rewrite !(Z.testbit_neg_r _ (i - _)) by lia.
    cbn. rewrite !orb_false_r. reflexivity. }
  rewrite (testbit_low8 _ (i - 8)) by lia.
  rewrite Z.shiftr_spec by lia.
  replace (i - 8 + 8) with i by lia.
  destruct (Z.ltb_spec (i - 8) 8) as [H16|H16].
  { rewrite !(Z.testbit_neg_r _ (i - _)) by lia.
    cbn. rewrite !orb_false_r. reflexivity. }
  rewrite (testbit_low8 _ (i - 16)) by lia.
  rewrite Z.shiftr_spec by lia.
  replace (i - 16 + 16) with i by lia.
  destruct (Z.ltb_spec (i - 16) 8) as [H24|H24].
  { rewrite !(Z.testbit_neg_r _ (i - _)) by lia.
    cbn. rewrite !orb_false_r. reflexivity. }
  rewrite (testbit_low8 _ (i - 24)) by lia.
  rewrite Z.shiftr_spec by lia.
  replace (i - 24 + 24) with i by lia.
  destruct (Z.ltb_spec (i - 24) 8) as [H32|H32].
  { cbn. reflexivity. }
  cbn. symmetry.
  apply Z.bits_above_log2; [lia|].
  destruct (Z.eq_dec v 0) as [->|Hnz]; [cbn; lia|].
  assert (Z.log2 v < 32) by (apply Z.log2_lt_pow2; lia).
  lia.
Qed.

(** The decoded value of any 4-byte buffer is a uint32. *)
Lemma Uint32_range b : 0 <= Uint32 b < 2 ^ 32.
Proof.
  destruct b as [|b0 [|b1 [|b2 [|b3 [|? ?]]]]]; cbn -[Z.pow]; try lia.
  pose proof (Z_of_byte_range b0). pose proof (Z_of_byte_range b1).
  pose proof (Z_of_byte_range b2). pose proof (Z_of_byte_range b3).
  split.
  - repeat (apply Z.lor_nonneg; split); try apply Z.shiftl_nonneg; lia.
  - destruct (Z.eq_dec
      (Z.lor (Z.lor (Z.lor (Z_of_byte b3) (Z.shiftl (Z_of_byte b2) 8))
                    (Z.shiftl (Z_of_byte b1) 16))
             (Z.shiftl (Z_of_byte b0) 24)) 0) as [->|Hnz]; [lia|].
    apply Z.log2_lt_pow2.
    + assert (0 <= Z.lor (Z.lor (Z.lor (Z_of_byte b3) (Z.shiftl (Z_of_byte b2) 8))
                    (Z.shiftl (Z_of_byte b1) 16))
             (Z.shiftl (Z_of_byte b0) 24)).
      { repeat (apply Z.lor_nonneg; split); try apply Z.shiftl_nonneg; lia. }
      lia.
    + assert (Hs : forall x k, 0 <= x < 256 -> 0 <= k -> Z.log2 (Z.shiftl x k) < 8 + k).
      { intros x k Hx Hk. destruct (Z.eq_dec x 0) as [->|Hx0].
        - rewrite Z.shiftl_0_l. cbn. lia.
        - rewrite Z.log2_shiftl by lia.
          assert (Z.log2 x < 8) by (apply Z.log2_lt_pow2; lia). lia. }
      assert (Hl : forall x, 0 <= x < 256 -> Z.log2 x < 8).
      { intros x Hx. destruct (Z.eq_dec x 0) as [->|Hx0]; [cbn; lia|].
        apply Z.log2_lt_pow2; lia. }
      pose proof (Hs _ 8 H1 ltac:(lia)). pose proof (Hs _ 16 H0 ltac:(lia)).
      pose proof (Hs _ 24 H ltac:(lia)). pose proof (Hl _ H2).
      rewrite !Z.log2_lor by
        (repeat (apply Z.lor_nonneg; split); try apply Z.shiftl_nonneg; lia).
      lia.
Qed.

End WireFacts.

(** ** The wire helpers on a well-behaved stream *)

Lemma copy_same_length dst src :
  length src = length dst -> Wire.copy dst src = src.
Proof.
  intros H. unfold Wire.copy. rewrite <- H, firstn_all.
  rewrite H, skipn_all, app_nil_r. reflexivity.
Qed.

Lemma Read_first4 conn bs more rest :
  incoming conn = Data (bs ++ more) :: rest -> length bs = 4%nat ->
  Read conn (Wire.make 4) =
    (bs, 4%nat, None, set_incoming conn (leftover more rest)).
Proof.
  intros Hin Hlen. unfold Read. rewrite Hin.
  destruct bs as [|b0 [|b1 [|b2 [|b3 [|b4 bs]]]]]; try discriminate Hlen.
  destruct more; reflexivity.
Qed.

(** When one [Read] delivers the peer's four bytes, [readUInt32] decodes
    the value the peer encoded. *)
Lemma readUInt32_first4 conn v more rest :
  0 <= v < 2 ^ 32 ->
  incoming conn = Data (Wire.PutUint32 v ++ more) :: rest ->
  readUInt32 conn = (v, None, set_incoming conn (leftover more rest)).
Proof.
  intros Hv Hin. unfold readUInt32.
  rewrite (Read_first4 conn _ more rest Hin (WireFacts.length_PutUint32 v)).
  rewrite WireFacts.Uint32_PutUint32 by exact Hv. reflexivity.
Qed.

Lemma readUInt32_data conn bs rest :
  incoming conn = Data bs :: rest ->
  readUInt32 conn =
    (Wire.Uint32 (Wire.copy (Wire.make 4) bs), None,
     set_incoming conn
       (if (4 <? length bs)%nat then Data (skipn 4 bs) :: rest else rest)).
Proof.
  intros Hin. unfold readUInt32, Read. rewrite Hin. reflexivity.
Qed.

Lemma readUInt32_fail conn e rest :
  incoming conn = Failure e :: rest ->
  readUInt32 conn = (0, Some e, set_incoming conn rest).
Proof.
  intros Hin. unfold readUInt32, Read. rewrite Hin. reflexivity.
Qed.

Lemma readUInt32_eof conn :
  incoming conn = [] -> readUInt32 conn = (0, Some EOF, conn).
Proof.
  intros Hin. unfold readUInt32, Read. rewrite Hin. reflexivity.
Qed.

Lemma writeUInt32_ok conn data :
  wfail conn = None ->
  writeUInt32 conn data =
    (None, set_sent conn (sent conn ++ Wire.PutUint32 data)).
Proof.
  intros Hw. unfold writeUInt32, Write. rewrite Hw. reflexivity.
Qed.

Lemma writeUInt32_fail conn data e :
  wfail conn = Some e -> writeUInt32 conn data = (Some e, conn).
Proof.
  intros Hw. unfold writeUInt32, Write. rewrite Hw. reflexivity.
Qed.


(** ** The initiator side: Connect *)

Section Initiator.

Context {Fn : Type}.
Implicit Types (b : Bon Fn) (r s : Z) (conn : Conn).

(** [Connect] when [Open], the write and the read succeed: the switch
    on the status decoded from the buffer. *)
Lemma Connect_status b r conn bs rest :
  dial (transporter b) r = inl conn ->
  wfail conn = None ->
  incoming conn = Data bs :: rest ->
  Connect b r =
    if decide (Wire.Uint32 (Wire.copy (Wire.make 4) bs) = handlerExists \/
               Wire.Uint32 (Wire.copy (Wire.make 4) bs) =
                 nonMatchingHandlerExists)
    then (Some (mkConn (if (4 <? length bs)%nat
                        then Data (skipn 4 bs) :: rest else rest)
                       None (sent conn ++ Wire.PutUint32 r)
                       (cfail conn) (closed conn)),
          None, after_Open b r)
    else (None, Some (HandlerError r), after_Open b r).
Proof.
  intros Hdial Hw Hin.
  unfold Connect, Open. rewrite Hdial.
  rewrite (writeUInt32_ok conn r Hw).
  rewrite (readUInt32_data _ bs rest) by exact Hin.
  unfold set_incoming, set_sent, after_Open.
  cbn [incoming wfail sent cfail closed]. rewrite Hw.
  set (st := Wire.Uint32 _).
  destruct (decide (st = handlerExists)) as [H1|H1].
  - rewrite decide_True by (left; exact H1). reflexivity.
  - destruct (decide (st = nonMatchingHandlerExists)) as [H2|H2].
    + rewrite decide_True by (right; exact H2). reflexivity.
    + rewrite decide_False by (intros [?|?]; contradiction). reflexivity.
Qed.

(** C1. For every route r: [Connect(r)] opens one connection through the
    Transporter, writes r on it as four big-endian bytes and reads the
    four big-endian bytes of the status s. When s is the exact-match or
    the fallback-match code the result is that connection, not closed
    by the call, with a nil error; for every other status it is a nil
    connection and [HandlerError{r}]. *)
Theorem Connect_handshake b r s conn more rest :
  0 <= s < 2 ^ 32 ->
  dial (transporter b) r = inl conn ->
  wfail conn = None ->
  incoming conn = Data (Wire.PutUint32 s ++ more) :: rest ->
  Connect b r =
    if decide (s = handlerExists \/ s = nonMatchingHandlerExists)
    then (Some (mkConn (leftover more rest) None
                       (sent conn ++ Wire.PutUint32 r)
                       (cfail conn) (closed conn)),
          None, after_Open b r)
    else (None, Some (HandlerError r), after_Open b r).
Proof.
  intros Hs Hdial Hw Hin.
  unfold Connect, Open. rewrite Hdial.
  rewrite (writeUInt32_ok conn r Hw).
  rewrite (readUInt32_first4 _ s more rest Hs) by exact Hin.
  unfold set_incoming, set_sent, after_Open.
  cbn [incoming wfail sent cfail closed]. rewrite Hw.
  destruct (decide (s = handlerExists)) as [->|H1].
  - rewrite decide_True by (left; reflexivity). reflexivity.
  - destruct (decide (s = nonMatchingHandlerExists)) as [->|H2].
    + rewrite decide_True by (right; reflexivity). reflexivity.
    + rewrite decide_False by (intros [?|?]; contradiction). reflexivity.
Qed.

(** C9. Whatever single segment the status read finds: when the value
    decoded from the buffer is neither 1 (exact match) nor 2 (fallback
    match), be it 4 (no match) or a value that is no status code at
    all, [Connect(r)] returns a nil connection and [HandlerError{r}]. *)
Theorem Connect_unmatched_status b r conn bs rest :
  dial (transporter b) r = inl conn ->
  wfail conn = None ->
  incoming conn = Data bs :: rest ->
  Wire.Uint32 (Wire.copy (Wire.make 4) bs) <> 1 ->
  Wire.Uint32 (Wire.copy (Wire.make 4) bs) <> 2 ->
  Connect b r = (None, Some (HandlerError r), after_Open b r).
Proof.
  intros Hdial Hw Hin Hne1 Hne2.
  rewrite (Connect_status b r conn bs rest Hdial Hw Hin).
  apply decide_False. intros [H|H]; [exact (Hne1 H) | exact (Hne2 H)].
Qed.

(** A failure of [Open] is the error of [Connect], after one call of
    [Open] and with no connection. *)
Lemma Connect_Open_error b r e :
  dial (transporter b) r = inr e ->
  Connect b r = (None, Some e, after_Open b r).
Proof.
  intros Hdial. unfold Connect, Open. rewrite Hdial. reflexivity.
Qed.

(** A failure of the handshake write or read is the error of [Connect]. *)
Lemma Connect_write_error b r conn e :
  dial (transporter b) r = inl conn -> wfail conn = Some e ->
  Connect b r = (None, Some e, after_Open b r).
Proof.
  intros Hdial Hw. unfold Connect, Open. rewrite Hdial.
  rewrite (writeUInt32_fail conn r e Hw). reflexivity.
Qed.

Lemma Connect_read_error b r conn e rest :
  dial (transporter b) r = inl conn -> wfail conn = None ->
  incoming conn = Failure e :: rest ->
  Connect b r = (None, Some e, after_Open b r).
Proof.
  intros Hdial Hw Hin. unfold Connect, Open. rewrite Hdial.
  rewrite (writeUInt32_ok conn r Hw).
  rewrite (readUInt32_fail _ e rest) by exact Hin. reflexivity.
Qed.

End Initiator.

(** ** The receiver side: handleConn *)

Section Receiver.

Context {Fn : Type}.
Implicit Types (b : Bon Fn) (r : Z) (conn : Conn) (h : option Fn).

Lemma handleConn_resolved b r conn more rest :
  0 <= r < 2 ^ 32 ->
  incoming conn = Data (Wire.PutUint32 r ++ more) :: rest ->
  wfail conn = None ->
  handleConn b conn =
    match snd (resolve b r) with
    | Some f =>
        (b, Dispatched f
              (answered conn (leftover more rest) (fst (resolve b r))))
    | None =>
        (log_close b (cfail conn),
         Rejected
           (set_closed
              (answered conn (leftover more rest) (fst (resolve b r))) true))
    end.
Proof.
  intros Hr Hin Hw. unfold handleConn.
  rewrite (readUInt32_first4 conn r more rest Hr Hin).
  destruct (resolve b r) as [st h].
  rewrite writeUInt32_ok by exact Hw.
  unfold answered, set_sent, set_incoming, Close, set_closed, log_close.
  cbn [fst snd incoming wfail sent cfail closed]. rewrite Hw.
  destruct h as [f|]; [reflexivity|].
  destruct (cfail conn); reflexivity.
Qed.

(** C2. For every route tag r received: the handler is the one the
    route map holds for r when there is one, with the exact-match
    status; else the fallback handler when it is set, with the
    fallback-match status; else none, with the no-match status. After
    the status is written a handler that was found is called with the
    connection, which the Router neither closes nor uses again; with no
    handler the Router closes the connection. *)
Theorem handleConn_dispatch b r conn more rest :
  0 <= r < 2 ^ 32 ->
  incoming conn = Data (Wire.PutUint32 r ++ more) :: rest ->
  wfail conn = None ->
  handleConn b conn =
    match index (handlers b) r with
    | Some f =>
        (b, Dispatched f (answered conn (leftover more rest) handlerExists))
    | None =>
        match nonMatchingHandler b with
        | Some f =>
            (b, Dispatched f
                  (answered conn (leftover more rest)
                            nonMatchingHandlerExists))
        | None =>
            (log_close b (cfail conn),
             Rejected
               (set_closed
                  (answered conn (leftover more rest) handlerDoesNotExists)
                  true))
        end
    end.
Proof.
  intros Hr Hin Hw.
  rewrite (handleConn_resolved b r conn more rest Hr Hin Hw).
  unfold resolve.
  destruct (index (handlers b) r) as [f|]; [reflexivity|].
  destruct (nonMatchingHandler b) as [f|]; reflexivity.
Qed.

(** C4. The three status codes are pairwise distinct, none is zero and
    each has exactly one bit set; what [handleConn] writes on the wire
    is the four big-endian bytes of the code that the lookup chose. *)
Theorem status_codes_on_the_wire b r conn more rest :
  0 <= r < 2 ^ 32 ->
  incoming conn = Data (Wire.PutUint32 r ++ more) :: rest ->
  wfail conn = None ->
  (handlerExists <> nonMatchingHandlerExists /\
   handlerExists <> handlerDoesNotExists /\
   nonMatchingHandlerExists <> handlerDoesNotExists) /\
  (handlerExists <> 0 /\ nonMatchingHandlerExists <> 0 /\
   handlerDoesNotExists <> 0) /\
  (popcount32 handlerExists = 1%nat /\
   popcount32 nonMatchingHandlerExists = 1%nat /\
   popcount32 handlerDoesNotExists = 1%nat) /\
  (Wire.PutUint32 handlerExists = [x00; x00; x00; x01] /\
   Wire.PutUint32 nonMatchingHandlerExists = [x00; x00; x00; x02] /\
   Wire.PutUint32 handlerDoesNotExists = [x00; x00; x00; x04]) /\
  sent (conn_of (snd (handleConn b conn))) =
    sent conn ++ Wire.PutUint32 (fst (resolve b r)) /\
  fst (resolve b r) =
    match index (handlers b) r, nonMatchingHandler b with
    | Some _, _ => handlerExists
    | None, Some _ => nonMatchingHandlerExists
    | None, None => handlerDoesNotExists
    end.
Proof.
  intros Hr Hin Hw.
  split; [repeat split; discriminate|].
  split; [repeat split; discriminate|].
  split; [repeat split; reflexivity|].
  split; [repeat split; reflexivity|].
  split.
  - rewrite (handleConn_resolved b r conn more rest Hr Hin Hw).
    destruct (snd (resolve b r)); reflexivity.
  - unfold resolve. destruct (index (handlers b) r); [reflexivity|].
    destruct (nonMatchingHandler b); reflexivity.
Qed.

(** ** The registry *)

Lemma index_Handle b r h d :
  index (handlers (Handle b r h)) d =
    if decide (r = d) then h else index (handlers b) d.
Proof.
  unfold index, Handle. cbn. rewrite lookup_insert.
  destruct (decide (r = d)); reflexivity.
Qed.

Lemma index_Off b r d :
  index (handlers (Off b r)) d =
    if decide (r = d) then None else index (handlers b) d.
Proof.
  unfold index, Off. cbn. rewrite lookup_delete.
  destruct (decide (r = d)); reflexivity.
Qed.

Lemma Off_Handle b r h : Off (Handle b r h) r = Off b r.
Proof.
  unfold Off, Handle, set_handlers. cbn. f_equal. apply delete_insert_eq.
Qed.

Lemma Off_absent b r : handlers b !! r = None -> Off b r = b.
Proof.
  intros Hnone. destruct b as [t m n l]. unfold Off, set_handlers. cbn in *.
  f_equal. apply delete_id. exact Hnone.
Qed.

(** [handleConn] reads the registry through [resolve] only. *)
Lemma handleConn_resolve_ext b1 b2 conn :
  (forall d, resolve b1 d = resolve b2 d) ->
  snd (handleConn b1 conn) = snd (handleConn b2 conn) /\
  (log b1 = log b2 ->
   log (fst (handleConn b1 conn)) = log (fst (handleConn b2 conn))).
Proof.
  intros Hres. unfold handleConn.
  destruct (readUInt32 conn) as [[data err] c1].
  destruct err as [e|].
  { cbn. split; [reflexivity|]. intros ->. reflexivity. }
  rewrite (Hres data). destruct (resolve b2 data) as [st h].
  destruct (writeUInt32 c1 st) as [err c2].
  destruct err as [e|].
  { cbn. split; [reflexivity|]. intros ->. reflexivity. }
  destruct h as [f|]; [cbn; auto|].
  destruct (Close c2) as [err c3]. destruct err as [e|]; cbn.
  - split; [reflexivity|]. intros ->. reflexivity.
  - split; [reflexivity|]. auto.
Qed.

(** The handler that [handleConn] calls is the one [resolve] gives for
    the tag it read. *)
Lemma handleConn_invoked b conn f :
  invoked (snd (handleConn b conn)) = Some f ->
  exists data, snd (resolve b data) = Some f /\
               fst (fst (readUInt32 conn)) = data.
Proof.
  unfold handleConn.
  destruct (readUInt32 conn) as [[data [e|]] c1]; [discriminate|].
  destruct (resolve b data) as [st h] eqn:Hres.
  destruct (writeUInt32 c1 st) as [[e|] c2]; [discriminate|].
  destruct h as [g|].
  - cbn. intros [= ->]. exists data. rewrite Hres. split; reflexivity.
  - destruct (Close c2) as [[e|] c3]; discriminate.
Qed.

(** C7. On a registry in which R was never registered, [Handle(R, H)]
    followed by [Off(R)] gives back that very registry, so that with no
    fallback a dispatch for R finds no handler and treats every
    connection as it did before; and [Off(R)] alone changes nothing.
    Whatever was registered before, [Off(R)] after [Handle(R, H)] is
    [Off(R)]. *)
Theorem Off_undoes_Handle b r h :
  handlers b !! r = None ->
  Off (Handle b r h) r = b /\
  Off b r = b /\
  (nonMatchingHandler b = None ->
   resolve (Off (Handle b r h) r) r = (handlerDoesNotExists, None)) /\
  (forall conn, handleConn (Off (Handle b r h) r) conn = handleConn b conn) /\
  (forall b0 : Bon Fn, Off (Handle b0 r h) r = Off b0 r).
Proof.
  intros Hnone.
  assert (Hback : Off (Handle b r h) r = b).
  { rewrite Off_Handle. apply Off_absent. exact Hnone. }
  split; [exact Hback|].
  split; [apply Off_absent; exact Hnone|].
  split.
  - intros Hnm. rewrite Hback. unfold resolve, index.
    rewrite Hnone, Hnm. reflexivity.
  - split.
    + intros conn. rewrite Hback. reflexivity.
    + intros b0. apply Off_Handle.
Qed.


End Receiver.

(** ** The receiver side: Run *)

Section AcceptLoop.

Context {Fn : Type}.
Implicit Types (b : Bon Fn) (conn : Conn) (script : list (Conn + error)).

Lemma handleConn_transporter b conn :
  transporter (fst (handleConn b conn)) = transporter b.
Proof.
  unfold handleConn.
  destruct (readUInt32 conn) as [[data [e|]] c1]; [reflexivity|].
  destruct (resolve b data) as [st h].
  destruct (writeUInt32 c1 st) as [[e|] c2]; [reflexivity|].
  destruct h as [f|]; [reflexivity|].
  destruct (Close c2) as [[e|] c3]; reflexivity.
Qed.

Lemma set_pending_pending b : set_pending b (pending (transporter b)) = b.
Proof. destruct b as [[d o p] m n l]. reflexivity. Qed.

(** [Run] is the loop of the source: it calls [Accept]; on an error it
    returns it; on a connection it starts [handleConn] and loops. *)
Lemma Run_loop b :
  Run b =
    match Accept (transporter b) with
    | None => (b, [], None)
    | Some (inr err, t) => (set_transporter b t, [], Some err)
    | Some (inl conn, t) =>
        let '(b1, o) := handleConn (set_transporter b t) conn in
        let '(b2, os, ret) := Run b1 in
        (b2, o :: os, ret)
    end.
Proof.
  unfold Run, Accept.
  destruct (pending (transporter b)) as [|[conn|e] rest] eqn:Hp.
  - cbn. rewrite <- Hp, set_pending_pending. reflexivity.
  - cbn [accept_loop]. fold (set_pending b rest).
    pose proof (handleConn_transporter (set_pending b rest) conn) as Ht.
    destruct (handleConn (set_pending b rest) conn) as [b1 o].
    cbn in Ht. rewrite Ht. reflexivity.
  - reflexivity.
Qed.

(** What the loop returns depends on what [Accept] returns only. *)
Lemma accept_loop_result (b1 b2 : Bon Fn) script :
  snd (accept_loop b1 script) = snd (accept_loop b2 script).
Proof.
  revert b1 b2. induction script as [|[conn|e] rest IH]; intros b1 b2.
  - reflexivity.
  - cbn [accept_loop].
    destruct (handleConn (set_pending b1 rest) conn) as [b1' o1].
    destruct (handleConn (set_pending b2 rest) conn) as [b2' o2].
    specialize (IH b1' b2').
    destruct (accept_loop b1' rest) as [[? ?] ret1].
    destruct (accept_loop b2' rest) as [[? ?] ret2].
    exact IH.
  - reflexivity.
Qed.

(** The loop goes through every connection accepted before the first
    error of [Accept] and returns that error. *)
Lemma accept_loop_until_error b conns e rest :
  exists b' os,
    accept_loop b (map inl conns ++ inr e :: rest) = (b', os, Some e) /\
    length os = length conns /\
    pending (transporter b') = rest.
Proof.
  revert b. induction conns as [|conn conns IH]; intros b.
  - cbn. eexists _, []. repeat split.
  - cbn [map app accept_loop].
    destruct (handleConn _ conn) as [b1 o].
    destruct (IH b1) as (b' & os & Heq & Hlen & Hpend).
    rewrite Heq. exists b', (o :: os). cbn. rewrite Hlen. repeat split.
    exact Hpend.
Qed.

(** With no error of [Accept] the loop never returns. *)
Lemma accept_loop_blocked b conns :
  snd (accept_loop b (map inl conns)) = None /\
  length (snd (fst (accept_loop b (map inl conns)))) = length conns.
Proof.
  revert b. induction conns as [|conn conns IH]; intros b.
  - split; reflexivity.
  - cbn [map accept_loop].
    destruct (handleConn _ conn) as [b1 o].
    destruct (IH b1) as [Hret Hlen].
    destruct (accept_loop b1 (map inl conns)) as [[b' os] ret].
    cbn in *. split; [exact Hret | rewrite Hlen; reflexivity].
Qed.

(** Every script is a run of accepted connections, then an error or
    nothing. *)
Lemma script_shape script :
  (exists conns, script = map inl conns) \/
  (exists conns e rest, script = map inl conns ++ inr e :: rest).
Proof.
  induction script as [|[conn|e] rest IH].
  - left. exists []. reflexivity.
  - destruct IH as [[conns ->]|(conns & e & rest' & ->)].
    + left. exists (conn :: conns). reflexivity.
    + right. exists (conn :: conns), e, rest'. reflexivity.
  - right. exists [], e, rest. reflexivity.
Qed.

(** An I/O failure of the handshake: logged, and nothing else. *)
Lemma handleConn_handshake_failure b conn e :
  handshake_failure conn = Some e ->
  exists c',
    handleConn b conn = (Println b e, Abandoned c') /\
    sent c' = sent conn /\ closed c' = closed conn.
Proof.
  intros Hfail. unfold handshake_failure in Hfail. unfold handleConn.
  destruct (incoming conn) as [|[bs|e0] rest] eqn:Hin.
  - injection Hfail as <-. rewrite (readUInt32_eof conn Hin).
    exists conn. repeat split.
  - rewrite (readUInt32_data conn bs rest Hin).
    destruct (resolve b _) as [st h].
    rewrite writeUInt32_fail with (e := e) by exact Hfail.
    eexists. repeat split.
  - injection Hfail as ->. rewrite (readUInt32_fail conn e rest Hin).
    eexists. repeat split.
Qed.

(** C5. When the read of the route tag or the write of the status
    fails on an accepted connection, [handleConn] logs the error and
    returns: no handler is called and the connection is neither
    written to nor closed. [Run], having accepted that connection, goes
    on exactly as [Run] does on what is left to accept, with the error
    in the log: it does not return the I/O error, its result is the one
    of the loop over the connections that follow. *)
Theorem handshake_failure_is_local b conn e script :
  pending (transporter b) = inl conn :: script ->
  handshake_failure conn = Some e ->
  exists c',
    handleConn b conn = (Println b e, Abandoned c') /\
    invoked (snd (handleConn b conn)) = None /\
    sent c' = sent conn /\ closed c' = closed conn /\
    log (Println b e) = log b ++ [e] /\
    Run b =
      (fst (fst (Run (Println (set_pending b script) e))),
       Abandoned c' :: snd (fst (Run (Println (set_pending b script) e))),
       snd (Run (Println (set_pending b script) e))) /\
    snd (Run b) = snd (accept_loop b script).
Proof.
  intros Hpend Hfail.
  destruct (handleConn_handshake_failure b conn e Hfail)
    as (c' & Hh & Hsent & Hclosed).
  destruct (handleConn_handshake_failure (set_pending b script) conn e Hfail)
    as (c2 & Hh2 & _ & _).
  assert (c2 = c') as ->.
  { pose proof (handleConn_resolve_ext b (set_pending b script) conn
                  (fun d => eq_refl)) as [Hout _].
    rewrite Hh, Hh2 in Hout. cbn in Hout. congruence. }
  exists c'. rewrite Hh. cbn [fst snd invoked].
  repeat split; try assumption.
  - unfold Run at 1. rewrite Hpend. cbn [accept_loop]. rewrite Hh2.
    unfold Run. cbn [Println set_pending set_transporter transporter pending].
    destruct (accept_loop (Println (set_pending b script) e) script)
      as [[b2 os] ret].
    reflexivity.
  - unfold Run. rewrite Hpend. cbn [accept_loop]. rewrite Hh2.
    rewrite (accept_loop_result b (Println (set_pending b script) e) script).
    destruct (accept_loop (Println (set_pending b script) e) script)
      as [[b2 os] ret].
    reflexivity.
Qed.

(** C6. [Run] returns e exactly when [Accept], after any number of
    connections, returns the error e; it has then started [handleConn]
    once for each of those connections; and while [Accept] returns no
    error [Run] does not return. When [Open] fails in [Connect], its
    error is the error of [Connect], with a nil connection and after
    that one call of [Open]. *)
Theorem Run_and_Connect_transport_errors b :
  (forall e,
     snd (Run b) = Some e <->
     exists conns rest,
       pending (transporter b) = map inl conns ++ inr e :: rest) /\
  (forall conns e rest,
     pending (transporter b) = map inl conns ++ inr e :: rest ->
     length (snd (fst (Run b))) = length conns /\
     pending (transporter (fst (fst (Run b)))) = rest) /\
  (snd (Run b) = None <->
   exists conns, pending (transporter b) = map inl conns) /\
  (forall r e,
     dial (transporter b) r = inr e ->
     Connect b r = (None, Some e, after_Open b r) /\
     opened (transporter (after_Open b r)) = r :: opened (transporter b)).
Proof.
  unfold Run. split; [|split; [|split]].
  - intros e. split.
    + intros Hret.
      destruct (script_shape (pending (transporter b)))
        as [[conns Hs]|(conns & e' & rest & Hs)].
      * rewrite Hs in Hret.
        destruct (accept_loop_blocked b conns) as [Hnone _].
        rewrite Hnone in Hret. discriminate.
      * destruct (accept_loop_until_error b conns e' rest)
          as (b' & os & Heq & _ & _).
        rewrite Hs, Heq in Hret. cbn in Hret. injection Hret as ->.
        exists conns, rest. exact Hs.
    + intros (conns & rest & Hs). rewrite Hs.
      destruct (accept_loop_until_error b conns e rest)
        as (b' & os & Heq & _ & _).
      rewrite Heq. reflexivity.
  - intros conns e rest Hs. rewrite Hs.
    destruct (accept_loop_until_error b conns e rest)
      as (b' & os & Heq & Hlen & Hpend).
    rewrite Heq. cbn. split; assumption.
  - split.
    + intros Hret.
      destruct (script_shape (pending (transporter b)))
        as [[conns Hs]|(conns & e' & rest & Hs)].
      * exists conns. exact Hs.
      * destruct (accept_loop_until_error b conns e' rest)
          as (b' & os & Heq & _ & _).
        rewrite Hs, Heq in Hret. discriminate.
    + intros [conns Hs]. rewrite Hs. apply accept_loop_blocked.
  - intros r e Hdial. split.
    + apply Connect_Open_error. exact Hdial.
    + reflexivity.
Qed.

End AcceptLoop.

Section GoroutineFacts.

Context {Fn : Type}.

(** Left alone, the goroutine is [handleConn]: six steps take it to its
    end, with the result of the function. *)
Lemma interleave_alone (b : Bon Fn) (conn : Conn) :
  interleave b (AtReadTag conn) (repeat None 6) =
    (fst (handleConn b conn), Returned (snd (handleConn b conn))).
Proof.
  unfold handleConn, resolve. cbn [repeat interleave step].
  destruct (readUInt32 conn) as [[data [e|]] c1]; [reflexivity|].
  cbn [interleave step].
  destruct (index (handlers b) data) as [f|] eqn:Hidx.
  - cbn [interleave step].
    destruct (writeUInt32 c1 _) as [[e|] c2]; reflexivity.
  - cbn [interleave step].
    destruct (nonMatchingHandler b) as [f|] eqn:Hnm.
    + cbn [interleave step]. rewrite Hnm.
      destruct (writeUInt32 c1 _) as [[e|] c2]; reflexivity.
    + cbn [interleave step].
      destruct (writeUInt32 c1 _) as [[e|] c2]; [reflexivity|].
      cbn [interleave step].
      destruct (Close c2) as [[e|] c3]; reflexivity.
Qed.

(** The race on the fallback slot: when [OffNonMatching] runs between
    the read of [b.nonMatchingHandler] under the lock and the read
    after it, the goroutine answers fallback-match and then closes the
    connection, calling no handler. *)
Lemma interleave_OffNonMatching (b : Bon Fn) r (conn : Conn) more rest f :
  0 <= r < 2 ^ 32 ->
  incoming conn = Data (Wire.PutUint32 r ++ more) :: rest ->
  wfail conn = None ->
  index (handlers b) r = None ->
  nonMatchingHandler b = Some f ->
  interleave b (AtReadTag conn)
    [None; None; None; Some CallOffNonMatching; None; None; None] =
  (log_close (OffNonMatching b) (cfail conn),
   Returned
     (Rejected
        (set_closed
           (answered conn (leftover more rest) nonMatchingHandlerExists)
           true))).
Proof.
  intros Hr Hin Hw Hidx Hnm. cbn [interleave step].
  rewrite (readUInt32_first4 conn r more rest Hr Hin).
  cbn [interleave step]. rewrite Hidx.
  cbn [interleave step]. rewrite Hnm.
  cbn [interleave step perform].
  cbn [OffNonMatching set_nonMatchingHandler nonMatchingHandler].
  rewrite writeUInt32_ok by exact Hw.
  cbn [interleave step].
  unfold answered, set_sent, set_incoming, Close, set_closed, log_close.
  cbn [fst snd incoming wfail sent cfail closed]. rewrite Hw.
  destruct (cfail conn); reflexivity.
Qed.

End GoroutineFacts.

(** ** Initiator and receiver together *)

Section EndToEnd.

Context {Fn Fn' : Type}.




End EndToEnd.

(** In a run of [handleConn] alone, the fallback-match status always
    comes with a handler to call. *)
Lemma resolve_fallback_has_handler {Fn} (b : Bon Fn) d :
  fst (resolve b d) = nonMatchingHandlerExists ->
  exists f, snd (resolve b d) = Some f.
Proof.
  unfold resolve. destruct (index (handlers b) d) as [f|].
  - discriminate.
  - destruct (nonMatchingHandler b) as [f|]; [eauto | discriminate].
Qed.

(** ** Concrete runs *)

(** C3, at a short read. When the four bytes of the route tag
    0x01020304 arrive in one segment, [readUInt32] returns the tag.
    When the stream delivers the same four bytes in two segments of two
    bytes, [readUInt32] returns 0x01020000 from its single [Read] and
    leaves the other two bytes unread. And when the status 1 (exact
    match) arrives as three bytes and then one, [Connect] decodes 0
    and returns [HandlerError], though the receiver found the
    handler. *)
Theorem readUInt32_short_read :
  readUInt32 (conn_in_segments [[x01; x02; x03; x04]]) =
    (16909060, None, conn_in_segments []) /\
  delivered (incoming (conn_in_segments [[x01; x02]; [x03; x04]])) =
    delivered (incoming (conn_in_segments [[x01; x02; x03; x04]])) /\
  readUInt32 (conn_in_segments [[x01; x02]; [x03; x04]]) =
    (16908288, None, conn_in_segments [[x03; x04]]) /\
  delivered (incoming (conn_in_segments [[x00; x00; x00]; [x01]])) =
    Wire.PutUint32 handlerExists /\
  fst (Connect
         (@New nat (transporter_of
                      (conn_in_segments [[x00; x00; x00]; [x01]]) []))
         9) =
    (None, Some (HandlerError 9)).
Proof.
  split.
  { exact (readUInt32_first4 (conn_in_segments [[x01; x02; x03; x04]])
             16909060 [] [] ltac:(lia) eq_refl). }
  split; [reflexivity|].
  split.
  { exact (readUInt32_data (conn_in_segments [[x01; x02]; [x03; x04]])
             [x01; x02] [Data [x03; x04]] eq_refl). }
  split; [reflexivity|].
  rewrite (Connect_status
             (@New nat (transporter_of
                          (conn_in_segments [[x00; x00; x00]; [x01]]) []))
             9 (conn_in_segments [[x00; x00; x00]; [x01]])
             [x00; x00; x00] [Data [x01]] eq_refl eq_refl eq_refl).
  reflexivity.
Qed.

(** C8, at a race. A Bon has the fallback handler 7 and no handler for
    route 0, and a connection asks for route 0. Left alone,
    [handleConn] answers fallback-match and calls the handler. When
    another goroutine calls [OffNonMatching] after [handleConn] has
    read [b.nonMatchingHandler] under the lock and before it reads it
    again, without the lock, the second read gives nil: [handleConn]
    writes the fallback-match status, finds no handler to call and
    closes the connection; the initiator that reads this status gets
    the connection back from [Connect] with a nil error. *)
Theorem fallback_status_without_handler :
  interleave
    (HandleNonMatching (@New nat (transporter_of (conn_with []) []))
                       (Some 7%nat))
    (AtReadTag (conn_with (Wire.PutUint32 0)))
    (repeat None 6) =
  (HandleNonMatching (@New nat (transporter_of (conn_with []) []))
                     (Some 7%nat),
   Returned
     (Dispatched 7%nat
        (mkConn [] None (Wire.PutUint32 nonMatchingHandlerExists) None
                false))) /\
  interleave
    (HandleNonMatching (@New nat (transporter_of (conn_with []) []))
                       (Some 7%nat))
    (AtReadTag (conn_with (Wire.PutUint32 0)))
    [None; None; None; Some CallOffNonMatching; None; None; None] =
  (@New nat (transporter_of (conn_with []) []),
   Returned
     (Rejected
        (mkConn [] None (Wire.PutUint32 nonMatchingHandlerExists) None
                true))) /\
  fst (Connect
         (@New nat
            (transporter_of
               (conn_with (Wire.PutUint32 nonMatchingHandlerExists)) []))
         0) =
    (Some (mkConn [] None (Wire.PutUint32 0) None false), None).
Proof.
  split.
  { rewrite interleave_alone.
    rewrite (handleConn_resolved _ 0 (conn_with (Wire.PutUint32 0)) [] []
               ltac:(lia) eq_refl eq_refl).
    reflexivity. }
  split.
  { exact (interleave_OffNonMatching
             (HandleNonMatching (@New nat (transporter_of (conn_with []) []))
                                (Some 7%nat))
             0 (conn_with (Wire.PutUint32 0)) [] [] 7%nat
             ltac:(lia) eq_refl eq_refl eq_refl eq_refl). }
  rewrite (Connect_status
             (@New nat
                (transporter_of
                   (conn_with (Wire.PutUint32 nonMatchingHandlerExists)) []))
             0 (conn_with (Wire.PutUint32 nonMatchingHandlerExists))
             (Wire.PutUint32 nonMatchingHandlerExists) []
             eq_refl eq_refl eq_refl).
  reflexivity.
Qed.

(** ** The package's tests *)

(** TestNonExistentHandle: nothing is registered at the peer. *)
Example TestNonExistentHandle :
  fst (Connect (@New nat (remote (@New nat (transporter_of (conn_with []) []))))
               0) =
    (None, Some (HandlerError 0)).
Proof. reflexivity. Qed.

(** TestHandle: the peer has a handler for route 1. *)
Example TestHandle :
  fst (Connect
         (@New nat
            (remote (Handle (@New nat (transporter_of (conn_with []) []))
                            1 (Some 7%nat))))
         1) =
    (Some (mkConn [] None [x00; x00; x00; x01] None false), None).
Proof. reflexivity. Qed.

(** TestOff: the handler of route 0 is removed before the connect. *)
Example TestOff :
  fst (Connect
         (@New nat
            (remote (Off (Handle (@New nat (transporter_of (conn_with []) []))
                                 0 (Some 7%nat))
                         0)))
         0) =
    (None, Some (HandlerError 0)).
Proof. reflexivity. Qed.

(** TestHandleNonMatching: a fallback handler, then none. *)
Example TestHandleNonMatching :
  fst (Connect
         (@New nat
            (remote (HandleNonMatching
                       (@New nat (transporter_of (conn_with []) []))
                       (Some 7%nat))))
         0) =
    (Some (mkConn [] None [x00; x00; x00; x00] None false), None) /\
  fst (Connect
         (@New nat
            (remote (OffNonMatching
                       (HandleNonMatching
                          (@New nat (transporter_of (conn_with []) []))
                          (Some 7%nat)))))
         0) =
    (None, Some (HandlerError 0)).
Proof. split; reflexivity. Qed.

(** TestCloseAfterRun and TestSelfCloseRemoteConnect: on a closed
    Transporter [Run] and [Connect] return its error. *)
Example TestClose :
  snd (Run (@New nat (closed_transporter ErrNet))) = Some ErrNet /\
  fst (Connect (@New nat (closed_transporter ErrNet)) 0) =
    (None, Some ErrNet).
Proof. split; reflexivity. Qed.

(** ** The theorems at concrete inputs *)

(** Route 5 is opened; the peer answers with the exact-match status. *)
Lemma Connect_handshake_witness :
  Connect (@New nat (transporter_of (conn_with (Wire.PutUint32 1)) [])) 5 =
    (Some (mkConn [] None (Wire.PutUint32 5) None false), None,
     after_Open (@New nat (transporter_of (conn_with (Wire.PutUint32 1)) [])) 5).
Proof.
  exact (Connect_handshake
           (@New nat (transporter_of (conn_with (Wire.PutUint32 1)) []))
           5 1 (conn_with (Wire.PutUint32 1)) [] []
           ltac:(lia) eq_refl eq_refl eq_refl).
Defined.

(** Route 5 is opened; the peer answers with the no-match status. *)
Lemma Connect_unmatched_status_witness :
  Connect (@New nat (transporter_of (conn_with (Wire.PutUint32 4)) [])) 5 =
    (None, Some (HandlerError 5),
     after_Open (@New nat (transporter_of (conn_with (Wire.PutUint32 4)) [])) 5).
Proof.
  apply (Connect_unmatched_status
           (@New nat (transporter_of (conn_with (Wire.PutUint32 4)) []))
           5 (conn_with (Wire.PutUint32 4)) (Wire.PutUint32 4) []);
    [reflexivity | reflexivity | reflexivity
     | vm_compute; discriminate | vm_compute; discriminate].
Defined.

(** Route 5 has the handler 1; a connection asks for route 5. *)
Lemma handleConn_dispatch_witness :
  handleConn (Handle (@New nat (transporter_of (conn_with []) [])) 5 (Some 1%nat))
             (conn_with (Wire.PutUint32 5)) =
    (Handle (@New nat (transporter_of (conn_with []) [])) 5 (Some 1%nat),
     Dispatched 1%nat (mkConn [] None (Wire.PutUint32 handlerExists) None false)).
Proof.
  exact (handleConn_dispatch
           (Handle (@New nat (transporter_of (conn_with []) [])) 5 (Some 1%nat))
           5 (conn_with (Wire.PutUint32 5)) [] []
           ltac:(lia) eq_refl eq_refl).
Defined.

(** Only a fallback handler is set; a connection asks for route 5. *)
Lemma status_codes_on_the_wire_witness :
  sent (conn_of (snd (handleConn
                        (HandleNonMatching
                           (@New nat (transporter_of (conn_with []) []))
                           (Some 2%nat))
                        (conn_with (Wire.PutUint32 5))))) =
    [x00; x00; x00; x02].
Proof.
  destruct (status_codes_on_the_wire
              (HandleNonMatching (@New nat (transporter_of (conn_with []) []))
                                 (Some 2%nat))
              5 (conn_with (Wire.PutUint32 5)) [] []
              ltac:(lia) eq_refl eq_refl)
    as (_ & _ & _ & _ & Hsent & _).
  exact Hsent.
Defined.

(** Route 5 is registered on a new Bon and removed again. *)
Lemma Off_undoes_Handle_witness :
  Off (Handle (@New nat (transporter_of (conn_with []) [])) 5 (Some 1%nat)) 5 =
    @New nat (transporter_of (conn_with []) []).
Proof.
  exact (proj1 (Off_undoes_Handle
                  (@New nat (transporter_of (conn_with []) []))
                  5 (Some 1%nat) (lookup_empty 5))).
Defined.

(** The first accepted connection fails its read with error 3; the
    second asks for route 5; then [Accept] fails with error 9. *)
Lemma handshake_failure_is_local_witness :
  snd (Run (@New nat
              (transporter_of (conn_with [])
                 [inl (mkConn [Failure (IOError 3)] None [] None false);
                  inl (conn_with (Wire.PutUint32 5));
                  inr (IOError 9)]))) =
    Some (IOError 9).
Proof.
  destruct (handshake_failure_is_local
              (@New nat
                 (transporter_of (conn_with [])
                    [inl (mkConn [Failure (IOError 3)] None [] None false);
                     inl (conn_with (Wire.PutUint32 5));
                     inr (IOError 9)]))
              (mkConn [Failure (IOError 3)] None [] None false)
              (IOError 3)
              [inl (conn_with (Wire.PutUint32 5)); inr (IOError 9)]
              eq_refl eq_refl)
    as (c' & _ & _ & _ & _ & _ & _ & Hret).
  exact Hret.
Defined.

(** * Further properties *)

(** ** The registry: Handle, Off, HandleNonMatching, OffNonMatching, New *)

Section Registry.

Context {Fn : Type}.
Implicit Types (b : Bon Fn) (r d : Z) (h : option Fn).

Lemma resolve_index_ext b1 b2 d :
  index (handlers b1) d = index (handlers b2) d ->
  nonMatchingHandler b1 = nonMatchingHandler b2 ->
  resolve b1 d = resolve b2 d.
Proof. intros Hi Hn. unfold resolve. rewrite Hi, Hn. reflexivity. Qed.

(** [Handle(r, h)] overwrites: of two registrations of r the second one
    stands, the lookup of r gives back what was registered, and a
    dispatch for r resolves to a registered non-nil handler with the
    exact-match status, whatever the fallback is. *)
Theorem Handle_last_wins b r h1 h2 :
  Handle (Handle b r h1) r h2 = Handle b r h2 /\
  index (handlers (Handle b r h2)) r = h2 /\
  (forall f, resolve (Handle (Handle b r h1) r (Some f)) r =
             (handlerExists, Some f)).
Proof.
  split; [|split].
  - unfold Handle, set_handlers. cbn. f_equal. apply insert_insert_eq.
  - rewrite index_Handle, decide_True by reflexivity. reflexivity.
  - intros f. unfold resolve.
    rewrite index_Handle, decide_True by reflexivity. reflexivity.
Qed.

(** [Handle(r, h)] and [Off(r)] change the dispatch of r only: for
    every other route tag the lookup gives what it gave. *)
Theorem registry_change_is_local b r d h :
  r <> d ->
  resolve (Handle b r h) d = resolve b d /\
  resolve (Off b r) d = resolve b d.
Proof.
  intros Hne. split; apply resolve_index_ext; try reflexivity.
  - rewrite index_Handle, decide_False by exact Hne. reflexivity.
  - rewrite index_Off, decide_False by exact Hne. reflexivity.
Qed.

(** Registrations and removals of two different routes can be made in
    either order, and [Off(r)] twice is [Off(r)] once. *)
Theorem registry_calls_commute b r1 r2 h1 h2 :
  r1 <> r2 ->
  Handle (Handle b r1 h1) r2 h2 = Handle (Handle b r2 h2) r1 h1 /\
  Off (Handle b r1 h1) r2 = Handle (Off b r2) r1 h1 /\
  Off (Off b r1) r2 = Off (Off b r2) r1 /\
  Off (Off b r1) r1 = Off b r1.
Proof.
  intros Hne. unfold Handle, Off, set_handlers. cbn.
  split; [|split; [|split]]; f_equal.
  - apply insert_insert_ne. congruence.
  - apply delete_insert_ne. congruence.
  - apply delete_delete.
  - apply delete_id. apply lookup_delete_eq.
Qed.

(** The fallback slot and the route map are independent, and an exact
    handler has priority: after [HandleNonMatching(h)] a route with a
    non-nil handler still resolves to it, every other route resolves
    to h when h is not nil and to no handler when it is; after
    [OffNonMatching()] a route without a handler resolves to no
    handler; and the calls on the slot commute with [Handle] and
    [Off]. *)
Theorem fallback_slot b r d h h' :
  resolve (HandleNonMatching b h) d =
    match index (handlers b) d, h with
    | Some f, _ => (handlerExists, Some f)
    | None, Some g => (nonMatchingHandlerExists, Some g)
    | None, None => (handlerDoesNotExists, None)
    end /\
  resolve (OffNonMatching b) d =
    match index (handlers b) d with
    | Some f => (handlerExists, Some f)
    | None => (handlerDoesNotExists, None)
    end /\
  HandleNonMatching (Handle b r h') h = Handle (HandleNonMatching b h) r h' /\
  HandleNonMatching (Off b r) h = Off (HandleNonMatching b h) r /\
  OffNonMatching (HandleNonMatching b h) = OffNonMatching b /\
  HandleNonMatching (HandleNonMatching b h') h = HandleNonMatching b h.
Proof.
  split; [|split].
  - unfold resolve. cbn. destruct (index (handlers b) d); [reflexivity|].
    destruct h; reflexivity.
  - unfold resolve. cbn. destruct (index (handlers b) d); reflexivity.
  - repeat split.
Qed.

(** A Bon made by [New] has no handler: every route tag resolves to no
    handler with the no-match status, and [handleConn] calls no
    handler, whatever the connection does. *)
Theorem New_has_no_handler (t : Transporter) (conn : Conn) d :
  resolve (@New Fn t) d = (handlerDoesNotExists, None) /\
  invoked (snd (handleConn (@New Fn t) conn)) = None.
Proof.
  assert (Hres : forall d', resolve (@New Fn t) d' = (handlerDoesNotExists, None)).
  { intros d'. unfold resolve, index. cbn. rewrite lookup_empty. reflexivity. }
  split; [apply Hres|].
  destruct (invoked (snd (handleConn (New t) conn))) as [f|] eqn:Hinv;
    [|reflexivity].
  destruct (handleConn_invoked _ _ _ Hinv) as (data & Hf & _).
  rewrite Hres in Hf. discriminate.
Qed.

End Registry.

(** Routes 1 and 2 on a new Bon. *)
Lemma registry_change_is_local_witness :
  resolve (Handle (@New nat (transporter_of (conn_with []) [])) 1 (Some 7%nat)) 2 =
    resolve (@New nat (transporter_of (conn_with []) [])) 2.
Proof.
  exact (proj1 (registry_change_is_local
                  (@New nat (transporter_of (conn_with []) []))
                  1 2 (Some 7%nat) ltac:(discriminate))).
Defined.

Lemma registry_calls_commute_witness :
  Handle (Handle (@New nat (transporter_of (conn_with []) [])) 1 (Some 7%nat))
         2 (Some 8%nat) =
  Handle (Handle (@New nat (transporter_of (conn_with []) [])) 2 (Some 8%nat))
         1 (Some 7%nat).
Proof.
  exact (proj1 (registry_calls_commute
                  (@New nat (transporter_of (conn_with []) []))
                  1 2 (Some 7%nat) (Some 8%nat) ltac:(discriminate))).
Defined.

(** ** The wire helpers: writeUInt32 and readUInt32 *)

Lemma copy_make4 bs :
  Wire.copy (Wire.make 4) bs =
    firstn 4 bs ++ repeat x00 (4 - length bs).
Proof.
  destruct bs as [|b0 [|b1 [|b2 [|b3 [|b4 bs]]]]]; reflexivity.
Qed.

Lemma testbit_byte_high b i : 8 <= i -> Z.testbit (Wire.Z_of_byte b) i = false.
Proof.
  intros Hi. pose proof (WireFacts.Z_of_byte_range b) as Hb.
  destruct (Z.eq_dec (Wire.Z_of_byte b) 0) as [->|Hnz].
  - apply Z.testbit_0_l.
  - apply Z.bits_above_log2; [lia|].
    assert (Z.log2 (Wire.Z_of_byte b) < 8) by (apply Z.log2_lt_pow2; lia).
    lia.
Qed.

Lemma low8_of_byte b : Wire.Z_of_byte b mod 256 = Wire.Z_of_byte b.
Proof. apply Z.mod_small, WireFacts.Z_of_byte_range. Qed.

(** The byte of [Uint32 [b0; b1; b2; b3]] at each of the four shifts. *)
Lemma Uint32_byte b0 b1 b2 b3 k (x : byte) :
  (k = 0 /\ x = b3) \/ (k = 8 /\ x = b2) \/ (k = 16 /\ x = b1) \/
  (k = 24 /\ x = b0) ->
  Z.shiftr (Wire.Uint32 [b0; b1; b2; b3]) k mod 256 = Wire.Z_of_byte x.
Proof.
  intros Hk. apply Z.bits_inj'. intros i Hi.
  rewrite WireFacts.testbit_low8 by lia.
  destruct (Z.ltb_spec i 8) as [Hlt|Hge]; cbn [andb].
  2:{ symmetry. apply testbit_byte_high. lia. }
  assert (0 <= k) by (destruct Hk as [[-> _]|[[-> _]|[[-> _]|[-> _]]]]; lia).
  rewrite Z.shiftr_spec by lia.
  unfold Wire.Uint32. rewrite !Z.lor_spec, !Z.shiftl_spec by lia.
  destruct Hk as [[-> ->]|[[-> ->]|[[-> ->]|[-> ->]]]].
  - rewrite !(Z.testbit_neg_r _ (i + 0 - _)) by lia.
    rewrite !orb_false_r. f_equal. lia.
  - rewrite (testbit_byte_high b3) by lia.
    rewrite (Z.testbit_neg_r _ (i + 8 - 16)), (Z.testbit_neg_r _ (i + 8 - 24))
      by lia.
    rewrite !orb_false_r. cbn [orb]. f_equal. lia.
  - rewrite (testbit_byte_high b3), (testbit_byte_high b2) by lia.
    rewrite (Z.testbit_neg_r _ (i + 16 - 24)) by lia.
    rewrite !orb_false_r. cbn [orb]. f_equal. lia.
  - rewrite (testbit_byte_high b3), (testbit_byte_high b2),
      (testbit_byte_high b1) by lia.
    cbn [orb]. f_equal. lia.
Qed.

Lemma PutUint32_Uint32 bs :
  length bs = 4%nat -> Wire.PutUint32 (Wire.Uint32 bs) = bs.
Proof.
  intros Hlen.
  destruct bs as [|b0 [|b1 [|b2 [|b3 [|b4 bs]]]]]; try discriminate Hlen.
  unfold Wire.PutUint32, Wire.byte_of_Z.
  rewrite (Uint32_byte b0 b1 b2 b3 24 b0) by tauto.
  rewrite (Uint32_byte b0 b1 b2 b3 16 b1) by tauto.
  rewrite (Uint32_byte b0 b1 b2 b3 8 b2) by tauto.
  replace (Wire.Uint32 [b0; b1; b2; b3] mod 256) with (Wire.Z_of_byte b3)
    by (rewrite <- (Uint32_byte b0 b1 b2 b3 0 b3) by tauto;
        rewrite Z.shiftr_0_r; reflexivity).
  unfold Wire.Z_of_byte. rewrite !N2Z.id, !Byte.of_to_N. reflexivity.
Qed.

(** What [writeUInt32] sends for a uint32 is what [readUInt32] decodes
    at the other end, when the four bytes arrive in one segment: the
    write succeeds, and the read gives the value back with no error. *)
Theorem write_then_read_roundtrip (a c : Conn) v rest :
  0 <= v < 2 ^ 32 ->
  wfail a = None ->
  incoming c =
    Data (skipn (length (sent a)) (sent (snd (writeUInt32 a v)))) :: rest ->
  fst (writeUInt32 a v) = None /\
  readUInt32 c = (v, None, set_incoming c rest).
Proof.
  intros Hv Hw Hin. rewrite (writeUInt32_ok a v Hw) in *.
  split; [reflexivity|].
  cbn [snd sent set_sent] in Hin.
  rewrite skipn_app, skipn_all, Nat.sub_diag in Hin. cbn [app skipn] in Hin.
  apply (readUInt32_first4 c v [] rest Hv). exact Hin.
Qed.

(** The encoding loses nothing: two uint32 values that [writeUInt32]
    sends as the same bytes are equal, and the four bytes that
    [readUInt32] decoded are the ones [writeUInt32] sends for the
    value. *)
Theorem wire_encoding_is_faithful (a : Conn) v1 v2 bs :
  0 <= v1 < 2 ^ 32 ->
  0 <= v2 < 2 ^ 32 ->
  wfail a = None ->
  length bs = 4%nat ->
  (sent (snd (writeUInt32 a v1)) = sent (snd (writeUInt32 a v2)) -> v1 = v2) /\
  sent (snd (writeUInt32 a (Wire.Uint32 bs))) = sent a ++ bs.
Proof.
  intros Hv1 Hv2 Hw Hlen. rewrite !(writeUInt32_ok a _ Hw). cbn [snd sent set_sent].
  split.
  - intros Heq. apply app_inv_head in Heq.
    rewrite <- (WireFacts.Uint32_PutUint32 v1 Hv1),
            <- (WireFacts.Uint32_PutUint32 v2 Hv2), Heq.
    reflexivity.
  - rewrite (PutUint32_Uint32 bs Hlen). reflexivity.
Qed.

(** [readUInt32] always returns a uint32, which is 0 with an error; it
    never writes to the connection, never closes it, and never changes
    what its [Write] and [Close] will return. *)
Theorem readUInt32_reads_only (conn : Conn) :
  0 <= fst (fst (readUInt32 conn)) < 2 ^ 32 /\
  (snd (fst (readUInt32 conn)) <> None -> fst (fst (readUInt32 conn)) = 0) /\
  sent (snd (readUInt32 conn)) = sent conn /\
  closed (snd (readUInt32 conn)) = closed conn /\
  wfail (snd (readUInt32 conn)) = wfail conn /\
  cfail (snd (readUInt32 conn)) = cfail conn.
Proof.
  unfold readUInt32, Read.
  destruct (incoming conn) as [|[bs|e] rest]; cbn.
  - repeat split; lia.
  - repeat split; try apply WireFacts.Uint32_range. intros []. reflexivity.
  - repeat split; lia.
Qed.

(** The single [Read] of [readUInt32]: from a first segment [bs] it
    takes at most four bytes, decodes them padded with the zeros of the
    fresh buffer when they are fewer than four, and leaves the rest of
    the stream; a segment of no byte gives 0 with a nil error. *)
Theorem readUInt32_single_Read (conn : Conn) bs rest :
  incoming conn = Data bs :: rest ->
  fst (readUInt32 conn) =
    (Wire.Uint32 (firstn 4 bs ++ repeat x00 (4 - length bs)), None) /\
  delivered (incoming (snd (readUInt32 conn))) = skipn 4 bs ++ delivered rest /\
  (bs = [] -> fst (fst (readUInt32 conn)) = 0).
Proof.
  intros Hin. rewrite (readUInt32_data conn bs rest Hin). cbn [fst snd].
  rewrite copy_make4. split; [reflexivity|]. split.
  - cbn [incoming set_incoming].
    destruct bs as [|b0 [|b1 [|b2 [|b3 [|b4 bs]]]]]; reflexivity.
  - intros ->. reflexivity.
Qed.

Lemma write_then_read_roundtrip_witness :
  readUInt32 (conn_with (Wire.PutUint32 258)) =
    (258, None, set_incoming (conn_with (Wire.PutUint32 258)) []).
Proof.
  exact (proj2 (write_then_read_roundtrip
                  (conn_with []) (conn_with (Wire.PutUint32 258)) 258 []
                  ltac:(lia) eq_refl eq_refl)).
Defined.

Lemma wire_encoding_is_faithful_witness :
  sent (snd (writeUInt32 (conn_with []) (Wire.Uint32 [x01; x02; x03; x04]))) =
    [x01; x02; x03; x04].
Proof.
  exact (proj2 (wire_encoding_is_faithful
                  (conn_with []) 1 2 [x01; x02; x03; x04]
                  ltac:(lia) ltac:(lia) eq_refl eq_refl)).
Defined.

Lemma readUInt32_single_Read_witness :
  fst (readUInt32 (conn_in_segments [[x01]; [x02; x03; x04]])) =
    (16777216, None).
Proof.
  exact (proj1 (readUInt32_single_Read
                  (conn_in_segments [[x01]; [x02; x03; x04]])
                  [x01] [Data [x02; x03; x04]] eq_refl)).
Defined.

(** ** Connect on every path *)

Section ConnectPaths.

Context {Fn : Type}.
Implicit Types (b : Bon Fn) (r : Z) (conn : Conn).

(** Whatever the Transporter and the connection do, [Connect(r)]
    returns either a connection with a nil error or a nil connection
    with an error, never both and never neither; it has then called
    [Open] once, with r, and has changed neither the registry nor the
    log of the Bon. *)
Theorem Connect_result_shape b r :
  ((exists c, fst (Connect b r) = (Some c, None)) \/
   (exists e, fst (Connect b r) = (None, Some e))) /\
  snd (Connect b r) = after_Open b r /\
  opened (transporter (snd (Connect b r))) = r :: opened (transporter b) /\
  handlers (snd (Connect b r)) = handlers b /\
  nonMatchingHandler (snd (Connect b r)) = nonMatchingHandler b /\
  log (snd (Connect b r)) = log b.
Proof.
  assert (Hall : ((exists c, fst (Connect b r) = (Some c, None)) \/
                  (exists e, fst (Connect b r) = (None, Some e))) /\
                 snd (Connect b r) = after_Open b r).
  { unfold Connect, Open, after_Open.
    destruct (dial (transporter b) r) as [conn|e]; [|cbn; eauto].
    destruct (writeUInt32 conn r) as [[e|] c1]; [cbn; eauto|].
    destruct (readUInt32 c1) as [[data [e|]] c2]; [cbn; eauto|].
    destruct (decide (data = handlerExists)); [cbn; eauto|].
    destruct (decide (data = nonMatchingHandlerExists)); cbn; eauto. }
  destruct Hall as [Hshape Hb]. split; [exact Hshape|].
  split; [exact Hb|]. rewrite Hb. repeat split.
Qed.

(** An I/O failure of the handshake of [Connect], of the write of the
    route or else of the read of the status, is the error that
    [Connect] returns, as it is and with a nil connection. *)
Theorem Connect_handshake_io_error b r conn e :
  dial (transporter b) r = inl conn ->
  connect_failure conn = Some e ->
  Connect b r = (None, Some e, after_Open b r).
Proof.
  intros Hdial Hfail. unfold connect_failure in Hfail.
  destruct (wfail conn) as [e'|] eqn:Hw.
  - injection Hfail as ->. apply (Connect_write_error b r conn e Hdial Hw).
  - destruct (incoming conn) as [|[bs|e'] rest] eqn:Hin; try discriminate.
    + injection Hfail as <-. unfold Connect, Open. rewrite Hdial.
      rewrite (writeUInt32_ok conn r Hw).
      rewrite readUInt32_eof by exact Hin. reflexivity.
    + injection Hfail as ->.
      apply (Connect_read_error b r conn e rest Hdial Hw Hin).
Qed.

(** A connection that [Connect(r)] returns is the one [Open(r)] gave:
    its write did not fail, the four bytes of r were written on it and
    nothing else, the status decoded from its first segment is the
    exact-match or the fallback-match code, and [Connect] did not close
    it. *)
Theorem Connect_returns_handshaken b r c :
  fst (fst (Connect b r)) = Some c ->
  exists conn bs rest,
    dial (transporter b) r = inl conn /\
    wfail conn = None /\
    incoming conn = Data bs :: rest /\
    (Wire.Uint32 (Wire.copy (Wire.make 4) bs) = handlerExists \/
     Wire.Uint32 (Wire.copy (Wire.make 4) bs) = nonMatchingHandlerExists) /\
    sent c = sent conn ++ Wire.PutUint32 r /\
    closed c = closed conn /\
    delivered (incoming c) = skipn 4 bs ++ delivered rest.
Proof.
  intros Hret.
  destruct (dial (transporter b) r) as [conn|e] eqn:Hdial.
  2:{ rewrite (Connect_Open_error b r e Hdial) in Hret. discriminate. }
  destruct (wfail conn) as [e|] eqn:Hw.
  { rewrite (Connect_write_error b r conn e Hdial Hw) in Hret. discriminate. }
  destruct (incoming conn) as [|[bs|e] rest] eqn:Hin.
  { unfold Connect, Open in Hret. rewrite Hdial in Hret.
    rewrite (writeUInt32_ok conn r Hw) in Hret.
    rewrite readUInt32_eof in Hret by exact Hin. discriminate. }
  2:{ rewrite (Connect_read_error b r conn e rest Hdial Hw Hin) in Hret.
      discriminate. }
  rewrite (Connect_status b r conn bs rest Hdial Hw Hin) in Hret.
  exists conn, bs, rest.
  destruct (decide (_ \/ _)) as [Hst|Hst]; [|discriminate].
  cbn in Hret. injection Hret as <-. cbn [sent closed incoming].
  repeat split; try assumption.
  destruct bs as [|b0 [|b1 [|b2 [|b3 [|b4 bs]]]]]; reflexivity.
Qed.

End ConnectPaths.

(** The write of the route fails with error 3. *)
Lemma Connect_handshake_io_error_witness :
  Connect (@New nat (transporter_of (mkConn [] (Some (IOError 3)) [] None false) []))
          5 =
    (None, Some (IOError 3),
     after_Open
       (@New nat (transporter_of (mkConn [] (Some (IOError 3)) [] None false) []))
       5).
Proof.
  exact (Connect_handshake_io_error
           (@New nat (transporter_of (mkConn [] (Some (IOError 3)) [] None false) []))
           5 (mkConn [] (Some (IOError 3)) [] None false) (IOError 3)
           eq_refl eq_refl).
Defined.

(** The peer answers route 5 with the fallback-match status. *)
Lemma Connect_returns_handshaken_witness :
  exists conn bs rest,
    dial (transporter
            (@New nat (transporter_of (conn_with (Wire.PutUint32 2)) [])))
         5 = inl conn /\
    wfail conn = None /\
    incoming conn = Data bs :: rest /\
    (Wire.Uint32 (Wire.copy (Wire.make 4) bs) = handlerExists \/
     Wire.Uint32 (Wire.copy (Wire.make 4) bs) = nonMatchingHandlerExists) /\
    sent (mkConn [] None (Wire.PutUint32 5) None false) =
      sent conn ++ Wire.PutUint32 5 /\
    closed (mkConn [] None (Wire.PutUint32 5) None false) = closed conn /\
    delivered (incoming (mkConn [] None (Wire.PutUint32 5) None false)) =
      skipn 4 bs ++ delivered rest.
Proof.
  exact (Connect_returns_handshaken
           (@New nat (transporter_of (conn_with (Wire.PutUint32 2)) []))
           5 (mkConn [] None (Wire.PutUint32 5) None false) eq_refl).
Defined.

(** ** Connect against a peer that runs handleConn *)

Section Peers.

Context {Fn Fn' : Type}.


End Peers.


(** ** handleConn on every connection *)

Section Dispatch.

Context {Fn : Type}.
Implicit Types (b : Bon Fn) (conn : Conn).



Lemma resolve_cases b data :
  (exists f, resolve b data = (handlerExists, Some f) /\
             index (handlers b) data = Some f) \/
  (exists f, resolve b data = (nonMatchingHandlerExists, Some f) /\
             index (handlers b) data = None /\
             nonMatchingHandler b = Some f) \/
  (resolve b data = (handlerDoesNotExists, None) /\
   index (handlers b) data = None /\ nonMatchingHandler b = None).
Proof.
  unfold resolve. destruct (index (handlers b) data) as [f|]; [eauto|].
  destruct (nonMatchingHandler b) as [f|]; eauto 10.
Qed.


(** [handleConn] leaves the Transporter and the registry as they are
    and prints at most one line to the log. *)
Theorem handleConn_keeps_registry b conn :
  transporter (fst (handleConn b conn)) = transporter b /\
  handlers (fst (handleConn b conn)) = handlers b /\
  nonMatchingHandler (fst (handleConn b conn)) = nonMatchingHandler b /\
  (log (fst (handleConn b conn)) = log b \/
   exists e, log (fst (handleConn b conn)) = log b ++ [e]).
Proof.
  unfold handleConn.
  destruct (readUInt32 conn) as [[data [e|]] c1]; [cbn; eauto 10|].
  destruct (resolve b data) as [st h].
  destruct (writeUInt32 c1 st) as [[e|] c2]; [cbn; eauto 10|].
  destruct h as [f|]; [cbn; eauto 10|].
  destruct (Close c2) as [[e|] c3]; cbn; eauto 10.
Qed.

(** [handleConn] calls registered handlers only: the handler it calls
    is the non-nil entry of the route map for the tag it read or, when
    that tag has none, the fallback handler. *)
Theorem handleConn_calls_registered b conn f :
  invoked (snd (handleConn b conn)) = Some f ->
  index (handlers b) (fst (fst (readUInt32 conn))) = Some f \/
  (index (handlers b) (fst (fst (readUInt32 conn))) = None /\
   nonMatchingHandler b = Some f).
Proof.
  intros Hinv.
  destruct (handleConn_invoked b conn f Hinv) as (data & Hf & <-).
  destruct (resolve_cases b (fst (fst (readUInt32 conn))))
    as [(g & Hres & Hidx)|[(g & Hres & Hidx & Hnm)|(Hres & _)]];
    rewrite Hres in Hf; cbn in Hf.
  - left. congruence.
  - right. split; congruence.
  - discriminate.
Qed.

End Dispatch.

Lemma handleConn_calls_registered_witness :
  index (handlers
           (Handle (@New nat (transporter_of (conn_with []) [])) 5 (Some 1%nat)))
        (fst (fst (readUInt32 (conn_with (Wire.PutUint32 5))))) = Some 1%nat \/
  (index (handlers
            (Handle (@New nat (transporter_of (conn_with []) [])) 5 (Some 1%nat)))
         (fst (fst (readUInt32 (conn_with (Wire.PutUint32 5))))) = None /\
   nonMatchingHandler
     (Handle (@New nat (transporter_of (conn_with []) [])) 5 (Some 1%nat)) =
     Some 1%nat).
Proof.
  exact (handleConn_calls_registered
           (Handle (@New nat (transporter_of (conn_with []) [])) 5 (Some 1%nat))
           (conn_with (Wire.PutUint32 5)) 1%nat eq_refl).
Defined.

(** ** Run over every script *)

Section RunOutcomes.

Context {Fn : Type}.
Implicit Types (b : Bon Fn) (script : list (Conn + error)).

Lemma handleConn_same_registry b1 b2 (conn : Conn) :
  handlers b1 = handlers b2 ->
  nonMatchingHandler b1 = nonMatchingHandler b2 ->
  snd (handleConn b1 conn) = snd (handleConn b2 conn).
Proof.
  intros Hh Hn. apply handleConn_resolve_ext. intros d.
  apply resolve_index_ext; [rewrite Hh; reflexivity | exact Hn].
Qed.

Lemma handleConn_fields b (conn : Conn) :
  transporter (fst (handleConn b conn)) = transporter b /\
  handlers (fst (handleConn b conn)) = handlers b /\
  nonMatchingHandler (fst (handleConn b conn)) = nonMatchingHandler b /\
  exists l, log (fst (handleConn b conn)) = log b ++ l /\ (length l <= 1)%nat.
Proof.
  unfold handleConn.
  destruct (readUInt32 conn) as [[data [e|]] c1].
  { cbn. repeat split. exists [e]. split; [reflexivity | cbn; lia]. }
  destruct (resolve b data) as [st h].
  destruct (writeUInt32 c1 st) as [[e|] c2].
  { cbn. repeat split. exists [e]. split; [reflexivity | cbn; lia]. }
  destruct h as [f|].
  { cbn. repeat split. exists []. rewrite app_nil_r. split; [reflexivity | cbn; lia]. }
  destruct (Close c2) as [[e|] c3]; cbn; repeat split.
  - exists [e]. split; [reflexivity | cbn; lia].
  - exists []. rewrite app_nil_r. split; [reflexivity | cbn; lia].
Qed.

Lemma accept_loop_invariant script b b0 :
  handlers b = handlers b0 ->
  nonMatchingHandler b = nonMatchingHandler b0 ->
  snd (fst (accept_loop b script)) =
    map (fun c => snd (handleConn b0 c)) (accepted script) /\
  handlers (fst (fst (accept_loop b script))) = handlers b0 /\
  nonMatchingHandler (fst (fst (accept_loop b script))) =
    nonMatchingHandler b0 /\
  dial (transporter (fst (fst (accept_loop b script)))) =
    dial (transporter b) /\
  opened (transporter (fst (fst (accept_loop b script)))) =
    opened (transporter b) /\
  exists l, log (fst (fst (accept_loop b script))) = log b ++ l /\
            (length l <= length (accepted script))%nat.
Proof.
  revert b. induction script as [|[conn|e] rest IH]; intros b Hh Hn.
  - cbn. repeat split; try assumption.
    exists []. rewrite app_nil_r. split; [reflexivity | cbn; lia].
  - cbn [accept_loop accepted map].
    destruct (handleConn_fields (set_pending b rest) conn)
      as (Ht & Hh1 & Hn1 & l1 & Hl1 & Hlen1).
    pose proof (handleConn_same_registry (set_pending b rest) b0 conn Hh Hn)
      as Hout.
    destruct (handleConn (set_pending b rest) conn) as [b1 o].
    cbn [fst snd] in *.
    destruct (IH b1) as (Hos & Hh2 & Hn2 & Hd & Ho & l2 & Hl2 & Hlen2).
    { rewrite Hh1. exact Hh. }
    { rewrite Hn1. exact Hn. }
    destruct (accept_loop b1 rest) as [[b2 os] ret]. cbn [fst snd] in *.
    rewrite Hos, Hout, Hd, Ho, Ht. repeat split; try assumption.
    exists (l1 ++ l2). rewrite Hl2, Hl1, app_assoc.
    split; [reflexivity|]. rewrite length_app. cbn. lia.
  - cbn. repeat split; try assumption.
    exists []. rewrite app_nil_r. split; [reflexivity | cbn; lia].
Qed.


(** [Run] changes neither the registry nor what [Open] does; to the
    log it only adds lines, at most one for each connection it
    accepted. *)
Theorem Run_keeps_registry b :
  handlers (fst (fst (Run b))) = handlers b /\
  nonMatchingHandler (fst (fst (Run b))) = nonMatchingHandler b /\
  dial (transporter (fst (fst (Run b)))) = dial (transporter b) /\
  opened (transporter (fst (fst (Run b)))) = opened (transporter b) /\
  exists l, log (fst (fst (Run b))) = log b ++ l /\
            (length l <= length (accepted (pending (transporter b))))%nat.
Proof.
  unfold Run.
  exact (proj2 (accept_loop_invariant (pending (transporter b)) b b
                  eq_refl eq_refl)).
Qed.

End RunOutcomes.

(** ** HandlerError.Error *)

Lemma length_append (a b : string) :
  String.length (a +:+ b) = (String.length a + String.length b)%nat.
Proof.
  induction a as [|c a IH]; [reflexivity|].
  simpl. f_equal. exact IH.
Qed.

Lemma append_inv_tail (a b s : string) : a +:+ s = b +:+ s -> a = b.
Proof.
  revert b. induction a as [|c a IH]; intros [|d b] H.
  - reflexivity.
  - apply (f_equal String.length) in H.
    rewrite !length_append in H. simpl in H. lia.
  - apply (f_equal String.length) in H.
    rewrite !length_append in H. simpl in H. lia.
  - simpl in H. injection H as -> H. f_equal. apply IH. exact H.
Qed.

(** The message of [HandlerError{Route}] names the route: it is the
    fixed text around the decimal numeral of the route, and two uint32
    routes with the same message are the same route. *)
Theorem HandlerError_Error_names_route r1 r2 :
  0 <= r1 < 2 ^ 32 ->
  0 <= r2 < 2 ^ 32 ->
  HandlerError_Error r1 = HandlerError_Error r2 ->
  r1 = r2.
Proof.
  intros H1 H2 Heq. unfold HandlerError_Error in Heq.
  apply (inj (String.app "no `")) in Heq.
  apply append_inv_tail in Heq.
  apply (inj pretty) in Heq. lia.
Qed.

(** The messages of the routes 0, 7 and 2^32 - 1. *)
Example HandlerError_Error_examples :
  HandlerError_Error 0 = "no `0` handler does not exists." /\
  HandlerError_Error 7 = "no `7` handler does not exists." /\
  HandlerError_Error 4294967295 = "no `4294967295` handler does not exists.".
Proof. repeat split; vm_compute; reflexivity. Qed.

Lemma HandlerError_Error_names_route_witness : 7 = 7.
Proof.
  exact (HandlerError_Error_names_route 7 7 ltac:(lia) ltac:(lia) eq_refl).
Defined.

(** ** handleConn and the calls of other goroutines *)

Section Schedules.

Context {Fn : Type}.
Implicit Types (b : Bon Fn) (g : @goroutine Fn) (c : @call Fn)
  (schedule : list (option (@call Fn))).

(** [finish] reads of the Bon the entry of the route tag and the
    fallback slot only. *)
Lemma finish_ext b1 b2 r g :
  looks_up r g ->
  index (handlers b1) r = index (handlers b2) r ->
  nonMatchingHandler b1 = nonMatchingHandler b2 ->
  finish b1 g = finish b2 g.
Proof.
  intros Hg Hi Hn.
  destruct g as [conn|data conn|conn|conn|st h conn|h conn|o];
    cbn in Hg |- *; try reflexivity.
  - unfold handleConn.
    destruct (readUInt32 conn) as [[data [e|]] c1]; [reflexivity|].
    cbn in Hg. subst data.
    rewrite (resolve_index_ext b1 b2 r Hi Hn).
    destruct (resolve b2 r) as [st h].
    destruct (writeUInt32 c1 st) as [[e|] c2]; [reflexivity|].
    destruct h as [f|]; [reflexivity|].
    destruct (Close c2) as [[e|] c3]; reflexivity.
  - subst data. rewrite (resolve_index_ext b1 b2 r Hi Hn). reflexivity.
  - rewrite Hn. reflexivity.
  - rewrite Hn. reflexivity.
Qed.

(** A step does not change how the goroutine ends. *)
Lemma finish_step b g : finish (fst (step b g)) (snd (step b g)) = finish b g.
Proof.
  destruct g as [conn|data conn|conn|conn|st h conn|h conn|o]; cbn.
  - unfold handleConn, resolve.
    destruct (readUInt32 conn) as [[data [e|]] c1]; [reflexivity|].
    cbn. unfold write_and_dispatch, dispatch_to, resolve.
    destruct (index (handlers b) data) as [f|].
    + cbn. destruct (writeUInt32 c1 _) as [[e|] c2]; reflexivity.
    + destruct (nonMatchingHandler b) as [f|]; cbn.
      * destruct (writeUInt32 c1 _) as [[e|] c2]; reflexivity.
      * destruct (writeUInt32 c1 _) as [[e|] c2]; [reflexivity|].
        cbn. destruct (cfail c2); reflexivity.
  - unfold resolve. destruct (index (handlers b) data) as [f|]; [reflexivity|].
    cbn. destruct (nonMatchingHandler b); reflexivity.
  - destruct (nonMatchingHandler b) as [f|] eqn:Hn; cbn;
      rewrite ?Hn; reflexivity.
  - reflexivity.
  - unfold write_and_dispatch.
    destruct (writeUInt32 conn st) as [[e|] c1]; reflexivity.
  - unfold dispatch_to. destruct h as [f|]; [reflexivity|].
    cbn. destruct (cfail conn); reflexivity.
  - reflexivity.
Qed.

Lemma step_progress b g r :
  looks_up r g ->
  looks_up r (snd (step b g)) /\
  (remaining (snd (step b g)) <= pred (remaining g))%nat.
Proof.
  intros Hg.
  destruct g as [conn|data conn|conn|conn|st h conn|h conn|o]; cbn in *.
  - destruct (readUInt32 conn) as [[data [e|]] c1]; cbn in *;
      (split; [auto | lia]).
  - destruct (index (handlers b) data); cbn; (split; [auto | lia]).
  - destruct (nonMatchingHandler b); cbn; (split; [auto | lia]).
  - split; [auto | lia].
  - destruct (writeUInt32 conn st) as [[e|] c1]; cbn; (split; [auto | lia]).
  - destruct h as [f|]; [cbn; split; [auto | lia]|].
    destruct (cfail conn); cbn; (split; [auto | lia]).
  - split; [auto | lia].
Qed.

Lemma perform_untouched b c r :
  touches r c = false ->
  index (handlers (perform b c)) r = index (handlers b) r /\
  nonMatchingHandler (perform b c) = nonMatchingHandler b.
Proof.
  intros Ht. destruct c as [r' h|r'|h|]; cbn in Ht; try discriminate.
  - apply bool_decide_eq_false in Ht. cbn [perform].
    rewrite index_Handle, decide_False by exact Ht. split; reflexivity.
  - apply bool_decide_eq_false in Ht. cbn [perform].
    rewrite index_Off, decide_False by exact Ht. split; reflexivity.
Qed.

Lemma interleave_avoiding r schedule b g :
  avoids r schedule = true ->
  looks_up r g ->
  (remaining g <= steps schedule)%nat ->
  snd (interleave b g schedule) = Returned (finish b g).
Proof.
  revert b g. induction schedule as [|[c|] rest IH]; intros b g Hav Hg Hrem.
  - destruct g; cbn in Hrem; try lia. reflexivity.
  - cbn in Hav. apply andb_prop in Hav as [Hc Hav].
    apply negb_true_iff in Hc.
    destruct (perform_untouched b c r Hc) as [Hi Hn].
    cbn [interleave]. rewrite (IH (perform b c) g Hav Hg Hrem).
    f_equal. apply (finish_ext _ _ r g Hg Hi Hn).
  - cbn in Hav. cbn [interleave steps] in *.
    destruct (step_progress b g r Hg) as [Hg1 Hrem1].
    pose proof (finish_step b g) as Hfin.
    destruct (step b g) as [b1 g1]. cbn [fst snd] in *.
    rewrite (IH b1 g1 Hav Hg1) by lia. rewrite Hfin. reflexivity.
Qed.

Lemma interleave_late schedule b g :
  (remaining g <= 2)%nat ->
  (remaining g <= steps schedule)%nat ->
  snd (interleave b g schedule) = Returned (finish b g).
Proof.
  revert b g. induction schedule as [|[c|] rest IH]; intros b g Hlate Hrem.
  - destruct g; cbn in Hrem; try lia. reflexivity.
  - cbn [interleave steps] in *. rewrite (IH (perform b c) g Hlate Hrem).
    destruct g; cbn in Hlate; try lia; reflexivity.
  - cbn [interleave steps] in *.
    destruct (step_progress b g 0) as [_ Hrem1].
    { destruct g; cbn in Hlate |- *; try lia; exact I. }
    pose proof (finish_step b g) as Hfin.
    destruct (step b g) as [b1 g1]. cbn [fst snd] in *.
    rewrite (IH b1 g1) by lia. rewrite Hfin. reflexivity.
Qed.

(** Calls of other goroutines that touch neither the entry of the
    route tag that [handleConn] reads nor the fallback slot do not
    change what [handleConn] does: however the registrations and
    removals of other routes fall between its steps, once it has had
    its six steps it has returned as it does when run alone. *)
Theorem other_routes_do_not_interfere b (conn : Conn) schedule :
  avoids (fst (fst (readUInt32 conn))) schedule = true ->
  (6 <= steps schedule)%nat ->
  snd (interleave b (AtReadTag conn) schedule) =
    Returned (snd (handleConn b conn)).
Proof.
  intros Hav Hsteps.
  exact (interleave_avoiding (fst (fst (readUInt32 conn))) schedule b
           (AtReadTag conn) Hav eq_refl Hsteps).
Qed.

(** Once [handleConn] has chosen the handler and the status, no call
    of another goroutine changes what it does: it ends the same on
    every Bon and under every schedule that lets it make its two last
    steps, and a handler that it found is called when the status is
    written, also when the handler was removed in between. *)
Theorem chosen_handler_is_called b b' st (h : option Fn) (conn : Conn)
  schedule schedule' :
  (2 <= steps schedule)%nat ->
  (2 <= steps schedule')%nat ->
  snd (interleave b (AtWriteStatus st h conn) schedule) =
    snd (interleave b' (AtWriteStatus st h conn) schedule') /\
  (forall f, h = Some f -> wfail conn = None ->
     snd (interleave b (AtWriteStatus st h conn) schedule) =
       Returned
         (Dispatched f (set_sent conn (sent conn ++ Wire.PutUint32 st)))).
Proof.
  intros Hs Hs'.
  rewrite (interleave_late schedule b (AtWriteStatus st h conn))
    by (cbn; lia).
  rewrite (interleave_late schedule' b' (AtWriteStatus st h conn))
    by (cbn; lia).
  split; [reflexivity|].
  intros f -> Hw. cbn [finish]. unfold write_and_dispatch.
  rewrite (writeUInt32_ok conn st Hw). reflexivity.
Qed.

(** The window of the fallback slot. On a Bon with the fallback
    handler f and no handler for the route r, [handleConn] run alone
    answers fallback-match and calls f. When [OffNonMatching] is called
    between its two reads of [b.nonMatchingHandler], it answers
    fallback-match all the same, then closes the connection and calls
    no handler. *)
Theorem OffNonMatching_in_the_window b r (conn : Conn) more rest f :
  0 <= r < 2 ^ 32 ->
  incoming conn = Data (Wire.PutUint32 r ++ more) :: rest ->
  wfail conn = None ->
  index (handlers b) r = None ->
  nonMatchingHandler b = Some f ->
  snd (handleConn b conn) =
    Dispatched f
      (answered conn (leftover more rest) nonMatchingHandlerExists) /\
  snd (interleave b (AtReadTag conn)
         [None; None; None; Some CallOffNonMatching; None; None; None]) =
    Returned
      (Rejected
         (set_closed
            (answered conn (leftover more rest) nonMatchingHandlerExists)
            true)).
Proof.
  intros Hr Hin Hw Hidx Hnm. split.
  - rewrite (handleConn_resolved b r conn more rest Hr Hin Hw).
    unfold resolve. rewrite Hidx, Hnm. reflexivity.
  - rewrite (interleave_OffNonMatching b r conn more rest f Hr Hin Hw Hidx Hnm).
    reflexivity.
Qed.

End Schedules.

(** Routes 1 and 2 are registered and removed while a connection asks
    for route 5, which only the fallback handler serves. *)
Lemma other_routes_do_not_interfere_witness :
  snd (interleave
         (HandleNonMatching (@New nat (transporter_of (conn_with []) []))
                            (Some 7%nat))
         (AtReadTag (conn_with (Wire.PutUint32 5)))
         [None; Some (CallHandle 1 (Some 8%nat)); None; None;
          Some (CallOff 1); None; Some (CallHandle 2 None); None; None]) =
    Returned
      (snd (handleConn
              (HandleNonMatching (@New nat (transporter_of (conn_with []) []))
                                 (Some 7%nat))
              (conn_with (Wire.PutUint32 5)))).
Proof.
  apply (other_routes_do_not_interfere
           (HandleNonMatching (@New nat (transporter_of (conn_with []) []))
                              (Some 7%nat))
           (conn_with (Wire.PutUint32 5))
           [None; Some (CallHandle 1 (Some 8%nat)); None; None;
            Some (CallOff 1); None; Some (CallHandle 2 None); None; None]);
    [vm_compute; reflexivity | cbn; lia].
Defined.

(** The handler 7 of route 5 is removed after it was chosen. *)
Lemma chosen_handler_is_called_witness :
  snd (interleave (@New nat (transporter_of (conn_with []) []))
         (AtWriteStatus handlerExists (Some 7%nat) (conn_with []))
         [Some (CallOff 5); None; None]) =
    snd (interleave
           (Handle (@New nat (transporter_of (conn_with []) [])) 5 (Some 7%nat))
           (AtWriteStatus handlerExists (Some 7%nat) (conn_with []))
           [None; None]).
Proof.
  apply (proj1 (chosen_handler_is_called
                  (@New nat (transporter_of (conn_with []) []))
                  (Handle (@New nat (transporter_of (conn_with []) []))
                          5 (Some 7%nat))
                  handlerExists (Some 7%nat) (conn_with [])
                  [Some (CallOff 5); None; None] [None; None]
                  ltac:(cbn; lia) ltac:(cbn; lia))).
Defined.

Lemma OffNonMatching_in_the_window_witness :
  snd (handleConn
         (HandleNonMatching (@New nat (transporter_of (conn_with []) []))
                            (Some 7%nat))
         (conn_with (Wire.PutUint32 0))) =
    Dispatched 7%nat
      (answered (conn_with (Wire.PutUint32 0)) (leftover [] [])
                nonMatchingHandlerExists).
Proof.
  exact (proj1 (OffNonMatching_in_the_window
                  (HandleNonMatching
                     (@New nat (transporter_of (conn_with []) []))
                     (Some 7%nat))
                  0 (conn_with (Wire.PutUint32 0)) [] [] 7%nat
                  ltac:(lia) eq_refl eq_refl eq_refl eq_refl)).
Defined.
